(** * pdf-tracker: the record store and its HTTP handlers (server.js)

    A shallow embedding of the tracking server.  The persistent state is
    the JSON document [data/tracking.json] (an object keyed by tracking
    identifier) together with the names of the files in [uploads/].  Every
    handler re-reads the whole document, changes it and writes it back, so
    a handler is a function from the state before the request to a
    response and the state after it.

    Conventions of the embedding:
    - a JavaScript number is an IEEE-754 binary64 value ([spec_float] at
      precision 53), with the division, product and comparison of the
      standard; [Math.round] is written out;
    - the parsed JSON document is an association list in insertion order
      (the order [Object.entries] enumerates non-integer keys in; the
      keys are uuids).  [get] reads a key the document holds itself; the
      properties every object inherits from [Object.prototype]
      ([constructor], [__proto__], ...) are accounted for by [serve],
      the entry point that takes any identifier a request can carry;
    - a string is held as its UTF-8 bytes (equality, [split('-')] and
      [includes] are the same on bytes as on characters);
    - the two view/download counters are integers: they start at 0 and
      only ever grow by one, far below 2^53 where binary64 stops being
      exact;
    - what only the environment decides (the clock, [uuidv4()], the
      client address and headers) is an input of the request;
    - file-system calls succeed. *)

From Stdlib Require Import ZArith SpecFloat Lia Ascii String.
From stdpp Require Import base list strings gmap.

Local Open Scope Z_scope.
Local Open Scope string_scope.

(** ** JavaScript numbers and the values a JSON body field can hold *)

Module Js.

Definition prec : Z := 53.
Definition emax : Z := 1024.

Definition number : Type := spec_float.

Definition NaN : number := S754_nan.
Definition zero : number := S754_zero false.

(** The number denoted by an integer literal. *)
Definition of_int (n : Z) : number := binary_normalize prec emax n 0 false.

(** [x / y] and [x * y]. *)
Definition div (x y : number) : number := SFdiv prec emax x y.
Definition mul (x y : number) : number := SFmul prec emax x y.

(** [x > y]: false as soon as one side is NaN. *)
Definition gt (x y : number) : bool := SFltb y x.

(** [Math.round x]: the integral number closest to [x], the one towards
    +Infinity on a tie; NaN, the infinities and the zeros are returned as
    they are, and a negative [x >= -0.5] gives -0. *)
Definition Math_round (x : number) : number :=
  match x with
  | S754_finite s m e =>
      if (0 <=? e)%Z then x
      else
        let n := ((2 * cond_Zopp s (Z.pos m) + 2 ^ (- e)) / 2 ^ (1 - e))%Z in
        binary_normalize prec emax n 0 s
  | _ => x
  end.

(** Scalar values of a parsed JSON body field; [JUndefined] is a field
    that is absent.  Strings, arrays and objects in the place of a number
    are not modelled. *)
Inductive jsval : Type :=
| JUndefined
| JNull
| JBool (b : bool)
| JNumber (x : number).

(** The abstract operation ToNumber, applied by [>] and [/]. *)
Definition ToNumber (v : jsval) : number :=
  match v with
  | JUndefined => NaN
  | JNull => zero
  | JBool true => of_int 1
  | JBool false => zero
  | JNumber x => x
  end.

(** What [JSON.parse (JSON.stringify v)] gives back for a property value:
    NaN and the infinities are written as [null], -0 as [0], and a
    property holding [undefined] is left out (so stays [JUndefined]). *)
Definition JSON_roundtrip (v : jsval) : jsval :=
  match v with
  | JNumber S754_nan => JNull
  | JNumber (S754_infinity _) => JNull
  | JNumber (S754_zero _) => JNumber zero
  | _ => v
  end.

(** [s.split('-')[0]] *)
Fixpoint split_dash_0 (s : string) : string :=
  match s with
  | EmptyString => EmptyString
  | String c rest =>
      if Ascii.eqb c "-"%char then EmptyString else String c (split_dash_0 rest)
  end.

(** [s.includes(sub)] *)
Fixpoint includes (s sub : string) : bool :=
  if String.prefix sub s then true
  else match s with
       | EmptyString => false
       | String _ rest => includes rest sub
       end.

End Js.

Export Js.

(** ** The JSON document as an object: keys in insertion order *)

Section Obj.

Context {V : Type}.

(** [o[k]] for a key the object holds itself ([None] when it holds no
    such key; see [resolves_inherited] for what the bare property access
    finds then). *)
Fixpoint get (o : list (string * V)) (k : string) : option V :=
  match o with
  | [] => None
  | (k', v) :: rest => if String.eqb k' k then Some v else get rest k
  end.

(** [o[k] = v]: an existing key keeps its place, a new one goes last. *)
Fixpoint set (o : list (string * V)) (k : string) (v : V) : list (string * V) :=
  match o with
  | [] => [(k, v)]
  | (k', v') :: rest =>
      if String.eqb k' k then (k', v) :: rest else (k', v') :: set rest k v
  end.

(** [delete o[k]] *)
Fixpoint del (o : list (string * V)) (k : string) : list (string * V) :=
  match o with
  | [] => []
  | (k', v') :: rest =>
      if String.eqb k' k then del rest k else (k', v') :: del rest k
  end.

(** [Object.entries(o).find(([_, v]) => p v)] *)
Fixpoint entries_find (p : V -> bool) (o : list (string * V)) : option (string * V) :=
  match o with
  | [] => None
  | (k, v) :: rest => if p v then Some (k, v) else entries_find p rest
  end.

(** An object holds each key once. *)
Definition keys (o : list (string * V)) : list string := map fst o.

Definition distinct_keys (o : list (string * V)) : Prop := NoDup (keys o).

End Obj.

(** ** Data model *)

(** The [action] of a log entry: [logAccess] is only ever called with one
    of these three literals. *)
Inductive Action : Type := view | download | page_view.

Definition Action_eqb (a b : Action) : bool :=
  match a, b with
  | view, view | download, download | page_view, page_view => true
  | _, _ => false
  end.

(** One element of [accessLogs].  [page] comes from the [metadata] spread
    of track-page; the last four fields are the session summary that
    track-session attaches.  A field that is absent holds [JUndefined]
    (or [None] for the two header-derived strings). *)
Record AccessLogEntry : Type := mkEntry {
  timestamp : string;
  action : Action;
  ip : option string;
  userAgent : option string;
  page : jsval;
  timeSpent : jsval;
  pagesViewed : jsval;
  totalPages : jsval;
  completion : jsval
}.

(** The value stored under a tracking identifier. *)
Record TrackingRecord : Type := mkRecord {
  trackingId : string;
  shortId : string;
  originalName : string;
  fileName : string;
  uploadedAt : string;
  accessLogs : list AccessLogEntry;
  totalViews : Z;
  totalDownloads : Z;
  allowDownload : bool;
  viewerUrl : string
}.

(** The parsed content of [data/tracking.json]. *)
Definition TrackingData : Type := list (string * TrackingRecord).

(** The persistent state: the tracking document ([None] while the file
    does not exist yet) and the names of the files under [uploads/]. *)
Record State : Type := mkState {
  trackingFile : option TrackingData;
  uploads : gset string
}.

(** ** Requests and responses *)

(** What a handler reads from [req] and from the environment, apart from
    its route parameters and body. *)
Record Req : Type := mkReq {
  now : string;                  (* new Date().toISOString() *)
  req_ip : option string;        (* req.ip || req.connection.remoteAddress *)
  user_agent : option string;    (* req.get('user-agent') *)
  host : option string           (* req.get('host') *)
}.

(** The file part of a multipart upload, as multer hands it to
    [fileFilter]. *)
Record FilePart : Type := mkFilePart {
  originalname : string;
  mimetype : string
}.

Inductive Body : Type :=
| UploadOk (trackingId shortId shareableLink statsUrl : string)
| Success                          (* { success: true } *)
| Deleted                          (* { success: true, message } *)
| RecordJson (r : TrackingRecord)
| AllJson (d : TrackingData)
| ViewerPage (trackingId : string)
| NotFoundPage
| PdfFile (fileName : string) (attachment : option string)
| ErrorJson (msg : string)         (* { error: msg } *)
| Text (msg : string).

Record Response : Type := mkResponse {
  status : nat;
  body : Body
}.

Definition is_not_found (r : Response) : bool := Nat.eqb (status r) 404.

(** ** Store helpers *)

Definition getTrackingData (st : State) : TrackingData * State :=
  match trackingFile st with
  | None => ([], mkState (Some []) (uploads st))
  | Some data => (data, st)
  end.

Definition saveTrackingData (data : TrackingData) (st : State) : State :=
  mkState (Some data) (uploads st).

(** The records a handler sees when it loads the document. *)
Definition records (st : State) : TrackingData := fst (getTrackingData st).

Definition existsSync (f : string) (st : State) : bool :=
  bool_decide (f ∈ uploads st).

Definition unlinkSync (f : string) (st : State) : State :=
  mkState (trackingFile st) (uploads st ∖ {[ f ]}).

Definition writeFile (f : string) (st : State) : State :=
  mkState (trackingFile st) ({[ f ]} ∪ uploads st).

Definition push_log (e : AccessLogEntry) (r : TrackingRecord) : TrackingRecord :=
  mkRecord (trackingId r) (shortId r) (originalName r) (fileName r)
    (uploadedAt r) (accessLogs r ++ [e]) (totalViews r) (totalDownloads r)
    (allowDownload r) (viewerUrl r).

Definition incr_totalViews (r : TrackingRecord) : TrackingRecord :=
  mkRecord (trackingId r) (shortId r) (originalName r) (fileName r)
    (uploadedAt r) (accessLogs r) (totalViews r + 1) (totalDownloads r)
    (allowDownload r) (viewerUrl r).

Definition incr_totalDownloads (r : TrackingRecord) : TrackingRecord :=
  mkRecord (trackingId r) (shortId r) (originalName r) (fileName r)
    (uploadedAt r) (accessLogs r) (totalViews r) (totalDownloads r + 1)
    (allowDownload r) (viewerUrl r).

Definition with_accessLogs (l : list AccessLogEntry) (r : TrackingRecord) : TrackingRecord :=
  mkRecord (trackingId r) (shortId r) (originalName r) (fileName r)
    (uploadedAt r) l (totalViews r) (totalDownloads r)
    (allowDownload r) (viewerUrl r).

(** [logAccess(trackingId, action, req, metadata)]; [metadata] is either
    [{}] or [{ page }], given here by the value of [page]. *)
Definition logAccess (id : string) (act : Action) (req : Req) (metadata_page : jsval)
    (st : State) : bool * State :=
  let '(trackingData, st1) := getTrackingData st in
  match get trackingData id with
  | None => (false, st1)
  | Some r =>
      let accessLog :=
        mkEntry (now req) act (req_ip req) (user_agent req)
          (JSON_roundtrip metadata_page) JUndefined JUndefined JUndefined JUndefined in
      let r1 := push_log accessLog r in
      let r2 :=
        match act with
        | view => incr_totalViews r1
        | download => incr_totalDownloads r1
        | page_view => r1
        end in
      (true, saveTrackingData (set trackingData id r2) st1)
  end.

(** ** Upload *)

(** The [fileFilter] given to multer: only the declared content type is
    looked at. *)
Definition fileFilter (file : FilePart) : bool :=
  String.eqb (mimetype file) "application/pdf".

(** [req.file] once multer has stored an accepted file. *)
Record StoredFile : Type := mkStoredFile {
  file_originalname : string;
  file_filename : string
}.

(** The middleware [upload.single('pdf')]: without a file part the
    handler runs with [req.file] undefined; a part refused by
    [fileFilter] ends the request with its error before anything is
    stored ([None]); an accepted part is written to [uploads/] under the
    name the [filename] callback builds from a fresh uuid. *)
Definition upload_single (part : option FilePart) (uuid : string) (st : State)
    : option (option StoredFile * State) :=
  match part with
  | None => Some (None, st)
  | Some file =>
      if fileFilter file then
        let uniqueName := uuid +:+ "-" +:+ originalname file in
        Some (Some (mkStoredFile (originalname file) uniqueName),
              writeFile uniqueName st)
      else None
  end.

(** [app.post('/api/upload', upload.single('pdf'), ...)].  [uuid_file]
    and [uuid_track] are the results of the two [uuidv4()] calls. *)
Definition post_upload (part : option FilePart) (uuid_file uuid_track : string)
    (req : Req) (st : State) : Response * State :=
  match upload_single part uuid_file st with
  | None => (mkResponse 500 (Text "Only PDF files are allowed!"), st)
  | Some (None, st0) => (mkResponse 400 (ErrorJson "No file uploaded"), st0)
  | Some (Some file, st0) =>
      let id := uuid_track in
      let sid := split_dash_0 id in
      match host req with
      | None =>
          (* req.get('host').includes throws, the catch answers 500 *)
          (mkResponse 500
             (ErrorJson "Cannot read properties of undefined (reading 'includes')"),
           st0)
      | Some h =>
          let protocol := if includes h "localhost" then "http" else "https" in
          let serverUrl := protocol +:+ "://" +:+ h in
          let '(trackingData, st1) := getTrackingData st0 in
          let r :=
            mkRecord id sid (file_originalname file) (file_filename file)
              (now req) [] 0 0 true (serverUrl +:+ "/v/" +:+ sid) in
          let st2 := saveTrackingData (set trackingData id r) st1 in
          (mkResponse 200
             (UploadOk id sid (serverUrl +:+ "/v/" +:+ sid)
                (serverUrl +:+ "/api/stats/" +:+ id)),
           st2)
      end
  end.

(** ** Viewer page, raw bytes and download *)

(** [app.get('/v/:shortId')] *)
Definition get_v (sid : string) (req : Req) (st : State) : Response * State :=
  let '(trackingData, st1) := getTrackingData st in
  match entries_find (fun data => String.eqb (shortId data) sid) trackingData with
  | None => (mkResponse 404 NotFoundPage, st1)
  | Some (id, pdfData) =>
      let '(_, st2) := logAccess id view req JUndefined st1 in
      (mkResponse 200 (ViewerPage id), st2)
  end.

(** [app.get('/get-pdf/:trackingId')] *)
Definition get_pdf (id : string) (st : State) : Response * State :=
  let '(trackingData, st1) := getTrackingData st in
  match get trackingData id with
  | None => (mkResponse 404 (Text "PDF not found"), st1)
  | Some r =>
      if existsSync (fileName r) st1
      then (mkResponse 200 (PdfFile (fileName r) None), st1)
      else (mkResponse 404 (Text "PDF file not found"), st1)
  end.

(** Node's check of a header value: [setHeader] throws when the value
    holds a character other than tab, U+0020..U+007E and U+0080..U+00FF.
    On the UTF-8 bytes of the string these are the bytes 9, 32..126, and
    128..195 (continuation bytes and the lead bytes 0xC2, 0xC3 of the
    characters up to U+00FF; a lead byte from 0xC4 on starts a character
    above U+00FF). *)
Definition header_char_ok (c : ascii) : bool :=
  let n := nat_of_ascii c in
  Nat.eqb n 9 || (Nat.leb 32 n && Nat.leb n 126) || (Nat.leb 128 n && Nat.leb n 195).

Definition header_value_ok (s : string) : bool :=
  forallb header_char_ok (list_ascii_of_string s).

(** [app.get('/download/:trackingId')].  The Content-Disposition header
    is built from [originalName]; when [setHeader] throws on it the
    [catch] answers 500. *)
Definition get_download (id : string) (st : State) : Response * State :=
  let '(trackingData, st1) := getTrackingData st in
  match get trackingData id with
  | None => (mkResponse 404 (Text "PDF not found"), st1)
  | Some r =>
      if existsSync (fileName r) st1 then
        if header_value_ok (originalName r)
        then (mkResponse 200 (PdfFile (fileName r) (Some (originalName r))), st1)
        else (mkResponse 500 (Text "Error downloading PDF"), st1)
      else (mkResponse 404 (Text "PDF file not found"), st1)
  end.

(** ** Tracking beacons *)

(** [app.post('/api/log-download')]: the result of [logAccess] is not
    looked at. *)
Definition post_log_download (id : string) (req : Req) (st : State) : Response * State :=
  let '(_, st1) := logAccess id download req JUndefined st in
  (mkResponse 200 Success, st1).

(** [app.post('/api/track-page')] *)
Definition post_track_page (id : string) (pg : jsval) (req : Req) (st : State)
    : Response * State :=
  let '(_, st1) := logAccess id page_view req pg st in
  (mkResponse 200 Success, st1).

(** [totalPages > 0 ? Math.round((pagesViewed / totalPages) * 100) : 0] *)
Definition completion_of (pv tp : jsval) : number :=
  if gt (ToNumber tp) (of_int 0)
  then Math_round (mul (div (ToNumber pv) (ToNumber tp)) (of_int 100))
  else of_int 0.

(** The four assignments to [lastLog], as they read back from the saved
    document. *)
Definition attach_session (ts pv tp : jsval) (lastLog : AccessLogEntry) : AccessLogEntry :=
  mkEntry (timestamp lastLog) (action lastLog) (ip lastLog) (userAgent lastLog)
    (page lastLog)
    (JSON_roundtrip ts) (JSON_roundtrip pv) (JSON_roundtrip tp)
    (JSON_roundtrip (JNumber (completion_of pv tp))).

(** [app.post('/api/track-session')] *)
Definition post_track_session (id : string) (ts pv tp : jsval) (st : State)
    : Response * State :=
  let '(trackingData, st1) := getTrackingData st in
  let st2 :=
    match get trackingData id with
    | None => st1
    | Some r =>
        let n := length (accessLogs r) in
        if (0 <? n)%nat then
          match accessLogs r !! (n - 1)%nat with
          | None => st1
          | Some lastLog =>
              if Action_eqb (action lastLog) view then
                let logs := <[(n - 1)%nat := attach_session ts pv tp lastLog]> (accessLogs r) in
                saveTrackingData (set trackingData id (with_accessLogs logs r)) st1
              else st1
          end
        else st1
    end in
  (mkResponse 200 Success, st2).

(** ** Stats and delete *)

(** [app.get('/api/stats/:trackingId')] *)
Definition get_stats (id : string) (st : State) : Response * State :=
  let '(trackingData, st1) := getTrackingData st in
  match get trackingData id with
  | None => (mkResponse 404 (ErrorJson "PDF not found"), st1)
  | Some r => (mkResponse 200 (RecordJson r), st1)
  end.

(** [app.get('/api/stats')] *)
Definition get_stats_all (st : State) : Response * State :=
  let '(trackingData, st1) := getTrackingData st in
  (mkResponse 200 (AllJson trackingData), st1).

(** [app.delete('/api/delete/:trackingId')] *)
Definition delete_delete (id : string) (st : State) : Response * State :=
  let '(trackingData, st1) := getTrackingData st in
  match get trackingData id with
  | None => (mkResponse 404 (ErrorJson "PDF not found"), st1)
  | Some r =>
      let st2 := if existsSync (fileName r) st1 then unlinkSync (fileName r) st1 else st1 in
      (mkResponse 200 Deleted, saveTrackingData (del trackingData id) st2)
  end.

(** ** The server as a transition system *)

Inductive Call : Type :=
| POST_upload (part : option FilePart) (uuid_file uuid_track : string)
| GET_v (sid : string)
| GET_get_pdf (id : string)
| GET_download (id : string)
| POST_log_download (id : string)
| POST_track_page (id : string) (pg : jsval)
| POST_track_session (id : string) (ts pv tp : jsval)
| GET_stats (id : string)
| GET_stats_all
| DELETE_delete (id : string).

Definition handle (c : Call) (req : Req) (st : State) : Response * State :=
  match c with
  | POST_upload part u1 u2 => post_upload part u1 u2 req st
  | GET_v sid => get_v sid req st
  | GET_get_pdf id => get_pdf id st
  | GET_download id => get_download id st
  | POST_log_download id => post_log_download id req st
  | POST_track_page id pg => post_track_page id pg req st
  | POST_track_session id ts pv tp => post_track_session id ts pv tp st
  | GET_stats id => get_stats id st
  | GET_stats_all => get_stats_all st
  | DELETE_delete id => delete_delete id st
  end.

(** The server starts without a tracking document. *)
Definition empty_store (st : State) : Prop :=
  trackingFile st = None \/ trackingFile st = Some [].

Inductive reachable : State -> Prop :=
| reach_init st : empty_store st -> reachable st
| reach_step st c req : reachable st -> reachable (snd (handle c req st)).

(** Run a list of requests in order. *)
Fixpoint run (cs : list (Call * Req)) (st : State) : State :=
  match cs with
  | [] => st
  | (c, req) :: rest => run rest (snd (handle c req st))
  end.

(** ** Identifiers that name an inherited property

    [trackingData[id]] finds a property of [Object.prototype] when the
    document holds no key [id] but every object inherits one: the value
    is then a function (or, for [__proto__], the prototype object),
    which passes the [!trackingData[id]] guards although it is no
    record.  The handlers above are the paths for an identifier that is
    a key of the document or names nothing; [serve] puts the remaining
    path in front of them. *)

(** The property names of [Object.prototype]. *)
Definition Object_prototype : list string :=
  ["constructor"; "__defineGetter__"; "__defineSetter__"; "hasOwnProperty";
   "__lookupGetter__"; "__lookupSetter__"; "isPrototypeOf";
   "propertyIsEnumerable"; "toString"; "valueOf"; "__proto__"; "toLocaleString"].

Definition inherited (k : string) : bool := existsb (String.eqb k) Object_prototype.

(** [o[k]] evaluates to an inherited member: [o] holds no key [k] and
    [k] is inherited. *)
Definition resolves_inherited {V : Type} (o : list (string * V)) (k : string) : bool :=
  match get o k with
  | Some _ => false
  | None => inherited k
  end.

(** What a route answers when the identifier resolves to an inherited
    member.  Every such request loads the document and fails (or, for
    stats, answers) before anything is written:
    - stats serialises the member: [JSON.stringify] gives nothing for a
      function (an empty 200 body) and [{}] for the prototype object;
    - get-pdf, download and delete read [.fileName] of it, [path.join]
      throws on [undefined], and their [catch] answers 500;
    - [logAccess] and track-session read [.accessLogs] of it and throw
      on [.push] / [.length]; these handlers have no [catch], so the
      framework answers 500. *)
Definition inherited_response (c : Call) : Response :=
  match c with
  | GET_stats id =>
      if String.eqb id "__proto__" then mkResponse 200 (AllJson [])
      else mkResponse 200 (Text EmptyString)
  | GET_get_pdf _ => mkResponse 500 (Text "Error serving PDF")
  | GET_download _ => mkResponse 500 (Text "Error downloading PDF")
  | DELETE_delete _ =>
      mkResponse 500
        (ErrorJson "The 'path' argument must be of type string. Received undefined")
  | POST_log_download _ | POST_track_page _ _ =>
      mkResponse 500 (Text "Cannot read properties of undefined (reading 'push')")
  | _ => mkResponse 500 (Text "Cannot read properties of undefined (reading 'length')")
  end.

(** The identifier a route looks up with [trackingData[id]], if any (the
    viewer route scans the entries instead, and upload writes under a
    fresh uuid). *)
Definition looked_up (c : Call) : option string :=
  match c with
  | GET_get_pdf id | GET_download id | POST_log_download id | POST_track_page id _
  | POST_track_session id _ _ _ | GET_stats id | DELETE_delete id => Some id
  | POST_upload _ _ _ | GET_v _ | GET_stats_all => None
  end.

(** The server on any request. *)
Definition serve (c : Call) (req : Req) (st : State) : Response * State :=
  match looked_up c with
  | Some id =>
      if resolves_inherited (records st) id
      then (inherited_response c, snd (getTrackingData st))
      else handle c req st
  | None => handle c req st
  end.

(** ** Derived descriptions of what the handlers do *)

(** The state once a handler has called [getTrackingData]. *)
Definition loaded (st : State) : State := snd (getTrackingData st).

(** The record [logAccess] writes back. *)
Definition logged (act : Action) (req : Req) (pg : jsval) (r : TrackingRecord)
    : TrackingRecord :=
  let e := mkEntry (now req) act (req_ip req) (user_agent req)
             (JSON_roundtrip pg) JUndefined JUndefined JUndefined JUndefined in
  match act with
  | view => incr_totalViews (push_log e r)
  | download => incr_totalDownloads (push_log e r)
  | page_view => push_log e r
  end.

(** The state track-session leaves behind. *)
Definition session_state (id : string) (ts pv tp : jsval) (st : State) : State :=
  match get (records st) id with
  | None => loaded st
  | Some r =>
      match last (accessLogs r) with
      | None => loaded st
      | Some lastLog =>
          if Action_eqb (action lastLog) view then
            saveTrackingData
              (set (records st) id
                 (with_accessLogs
                    (<[(length (accessLogs r) - 1)%nat := attach_session ts pv tp lastLog]>
                       (accessLogs r)) r))
              (loaded st)
          else loaded st
      end
  end.


(** ** Observations used by the statements below *)

(** The [completion] of the most recent log entry of record [id]. *)
Definition completion_written (id : string) (st : State) : option jsval :=
  match get (records st) id with
  | None => None
  | Some r =>
      match last (accessLogs r) with
      | None => None
      | Some e => Some (completion e)
      end
  end.

(** The completion percentage in the words of the specification:
    [round(pagesViewed / totalPages * 100)], and 0 when [totalPages] is 0.
    (The handler's own expression is [completion_of].) *)
Definition spec_completion (pv tp : jsval) : number :=
  if SFeqb (ToNumber tp) (of_int 0) then of_int 0
  else Math_round (mul (div (ToNumber pv) (ToNumber tp)) (of_int 100)).

(** Number of entries of a log with a given action. *)
Definition count_action (a : Action) (l : list AccessLogEntry) : nat :=
  length (List.filter (fun e => Action_eqb (action e) a) l).

(** The two counters agree with the log. *)
Definition counters_agree (r : TrackingRecord) : Prop :=
  totalViews r = Z.of_nat (count_action view (accessLogs r)) /\
  totalDownloads r = Z.of_nat (count_action download (accessLogs r)).

(** ** Sample requests and states *)

Definition req0 : Req :=
  mkReq "2025-01-01T00:00:00.000Z" (Some "::1") (Some "Mozilla/5.0")
    (Some "localhost:3000").

Definition pdf_part : FilePart := mkFilePart "report.pdf" "application/pdf".
Definition txt_part : FilePart := mkFilePart "notes.txt" "text/plain".

Definition id_a : string := "aaaaaaaa-1111-4111-8111-111111111111".
Definition id_b : string := "aaaaaaaa-2222-4222-8222-222222222222".
Definition id_c : string := "cccccccc-3333-4333-8333-333333333333".

Definition st_init : State := mkState None ∅.

(** One document uploaded. *)
Definition st_uploaded : State :=
  run [(POST_upload (Some pdf_part) "f0000000-0000-4000-8000-000000000000" id_a, req0)]
    st_init.

(** ... and its viewer page opened once. *)
Definition st_viewed : State := run [(GET_v "aaaaaaaa", req0)] st_uploaded.

(** ... and the first page reported by the viewer script. *)
Definition st_paged : State :=
  run [(POST_track_page id_a (JNumber (of_int 1)), req0)] st_viewed.

(** Two documents whose uuids start with the same eight digits. *)
Definition st_collision : State :=
  run [(POST_upload (Some pdf_part) "f1111111-0000-4000-8000-000000000000" id_b, req0)]
    st_uploaded.

(** ** The ways a request can change the document *)

(** [store_change c d d']: [d'] is what call [c] may leave of document
    [d]: nothing changed, one access logged on a record, a session summary
    attached to the last (view) entry of a record, a fresh record stored
    under the uuid drawn by an upload, or a key deleted. *)
Inductive store_change (c : Call) (d : TrackingData) : TrackingData -> Prop :=
| change_none : store_change c d d
| change_log k r act req pg :
    get d k = Some r ->
    store_change c d (set d k (logged act req pg r))
| change_session k r e ts pv tp :
    get d k = Some r ->
    last (accessLogs r) = Some e ->
    action e = view ->
    store_change c d
      (set d k (with_accessLogs
                  (<[(length (accessLogs r) - 1)%nat := attach_session ts pv tp e]>
                     (accessLogs r)) r))
| change_upload part u1 u2 r :
    c = POST_upload part u1 u2 ->
    accessLogs r = [] -> totalViews r = 0 -> totalDownloads r = 0 ->
    shortId r = split_dash_0 u2 ->
    store_change c d (set d u2 r)
| change_delete k : store_change c d (del d k).

(** [c] is an upload whose record is stored under [id]. *)
Definition assigns (id : string) (c : Call) : bool :=
  match c with
  | POST_upload _ _ u2 => String.eqb u2 id
  | _ => false
  end.

(** [c] is an upload whose record gets short identifier [sid]. *)
Definition assigns_short (sid : string) (c : Call) : bool :=
  match c with
  | POST_upload _ _ u2 => String.eqb (split_dash_0 u2) sid
  | _ => false
  end.

(** No record of the document has short identifier [sid]. *)
Definition short_free (sid : string) (d : TrackingData) : Prop :=
  forall k r, (k, r) ∈ d -> shortId r <> sid.

(** Every record of the document has counters that agree with its log. *)
Definition all_counters_agree (d : TrackingData) : Prop :=
  Forall (fun kv => counters_agree (snd kv)) d.

(** ** A finer account of one request *)

(** The record literal the upload handler stores. *)
Definition new_record (file : FilePart) (u1 u2 h : string) (req : Req) : TrackingRecord :=
  let sid := split_dash_0 u2 in
  let protocol := if includes h "localhost" then "http" else "https" in
  let serverUrl := protocol +:+ "://" +:+ h in
  mkRecord u2 sid (originalname file) (u1 +:+ "-" +:+ originalname file)
    (now req) [] 0 0 true (serverUrl +:+ "/v/" +:+ sid).

(** [store_step c req d d']: what request [c] makes of document [d],
    with the route that does it. *)
Inductive store_step (c : Call) (req : Req) (d : TrackingData) : TrackingData -> Prop :=
| step_same : store_step c req d d
| step_view sid k r :
    c = GET_v sid -> get d k = Some r ->
    store_step c req d (set d k (logged view req JUndefined r))
| step_download k r :
    c = POST_log_download k -> get d k = Some r ->
    store_step c req d (set d k (logged download req JUndefined r))
| step_page k pg r :
    c = POST_track_page k pg -> get d k = Some r ->
    store_step c req d (set d k (logged page_view req pg r))
| step_session k ts pv tp r e :
    c = POST_track_session k ts pv tp ->
    get d k = Some r -> last (accessLogs r) = Some e -> action e = view ->
    store_step c req d
      (set d k (with_accessLogs
                  (<[(length (accessLogs r) - 1)%nat := attach_session ts pv tp e]>
                     (accessLogs r)) r))
| step_upload file u1 u2 h :
    c = POST_upload (Some file) u1 u2 -> host req = Some h ->
    store_step c req d (set d u2 (new_record file u1 u2 h req))
| step_delete k r :
    c = DELETE_delete k -> get d k = Some r ->
    store_step c req d (del d k).

(** The routes that only read. *)
Definition is_read (c : Call) : bool :=
  match c with
  | GET_get_pdf _ | GET_download _ | GET_stats _ | GET_stats_all => true
  | _ => false
  end.

(** The routes that write or remove files. *)
Definition touches_files (c : Call) : bool :=
  match c with
  | POST_upload _ _ _ | DELETE_delete _ => true
  | _ => false
  end.

(** [c] deletes the record stored under [id]. *)
Definition deletes (id : string) (c : Call) : bool :=
  match c with
  | DELETE_delete k => String.eqb k id
  | _ => false
  end.

(** What [logAccess] records of an access; track-session never writes
    these fields. *)
Definition entry_base (e : AccessLogEntry)
    : string * Action * option string * option string * jsval :=
  (timestamp e, action e, ip e, userAgent e, page e).

(** Only page_view entries carry a page, only view entries a session
    summary. *)
Definition entry_shaped (e : AccessLogEntry) : Prop :=
  (action e <> page_view -> page e = JUndefined) /\
  (action e <> view ->
     timeSpent e = JUndefined /\ pagesViewed e = JUndefined /\
     totalPages e = JUndefined /\ completion e = JUndefined).

(** A record as the upload handler builds it, under its own key. *)
Definition record_identified (k : string) (r : TrackingRecord) : Prop :=
  trackingId r = k /\
  shortId r = split_dash_0 k /\
  allowDownload r = true /\
  (exists u, fileName r = u +:+ "-" +:+ originalName r) /\
  (exists base, viewerUrl r = base +:+ "/v/" +:+ shortId r).

(** A string without ['-']. *)
Fixpoint dash_free (s : string) : bool :=
  match s with
  | EmptyString => true
  | String c rest => negb (Ascii.eqb c "-"%char) && dash_free rest
  end.

(** ** More sample data *)

(** The record of [st_uploaded], then of [st_viewed], then of
    [st_paged]. *)
Definition rec_a : TrackingRecord :=
  mkRecord id_a "aaaaaaaa" "report.pdf"
    "f0000000-0000-4000-8000-000000000000-report.pdf"
    "2025-01-01T00:00:00.000Z" [] 0 0 true "http://localhost:3000/v/aaaaaaaa".

Definition rec_a_viewed : TrackingRecord := logged view req0 JUndefined rec_a.

Definition rec_a_paged : TrackingRecord :=
  logged page_view req0 (JNumber (of_int 1)) rec_a_viewed.

(** ** The viewer page script

    The part of the script sent by [/v/:shortId] that decides which
    pages are reported: its variables, [trackPageView], the render queue
    and the navigation and zoom handlers.  Rendering itself (pdf.js, the
    canvas) is not modelled; the completion of a render is an event.  The
    [fetch] calls issued are collected in [sent], as the requests the
    server will parse.  The beforeunload beacon is represented by the two
    counts it reads, [pagesViewed] and [totalPages]. *)

Module Viewer.

Record Script : Type := mkScript {
  trackingId : string;            (* const trackingId *)
  currentPage : Z;
  pageViews : list Z;             (* the Set, in insertion order *)
  pdfDoc : option Z;              (* null, or the document with its numPages *)
  pageNum : Z;
  pageRendering : bool;
  pageNumPending : option Z;
  scale : number;
  sent : list Call
}.

(** The state when the script has run its top level: page 1, nothing
    loaded or rendering, scale 1.5. *)
Definition init (tid : string) : Script :=
  mkScript tid 1 [] None 1 false None (div (of_int 3) (of_int 2)) [].

(** [trackPageView(pageNum)] *)
Definition trackPageView (num : Z) (s : Script) : Script :=
  if bool_decide (num ∈ pageViews s) then s
  else
    mkScript (trackingId s) (currentPage s) (pageViews s ++ [num]) (pdfDoc s)
      (pageNum s) (pageRendering s) (pageNumPending s) (scale s)
      (sent s ++ [POST_track_page (trackingId s) (JNumber (of_int num))]).

(** [renderPage(num)], up to the call of [pdfDoc.getPage]: what follows
    changes no variable (and does not happen when [pdfDoc] is still
    null, where the call throws). *)
Definition renderPage (num : Z) (s : Script) : Script :=
  trackPageView num
    (mkScript (trackingId s) num (pageViews s) (pdfDoc s) (pageNum s) true
       (pageNumPending s) (scale s) (sent s)).

(** [queueRenderPage(num)] *)
Definition queueRenderPage (num : Z) (s : Script) : Script :=
  if pageRendering s then
    mkScript (trackingId s) (currentPage s) (pageViews s) (pdfDoc s) (pageNum s)
      (pageRendering s) (Some num) (scale s) (sent s)
  else renderPage num s.

Definition with_pageNum (n : Z) (s : Script) : Script :=
  mkScript (trackingId s) (currentPage s) (pageViews s) (pdfDoc s) n
    (pageRendering s) (pageNumPending s) (scale s) (sent s).

Definition with_scale (x : number) (s : Script) : Script :=
  mkScript (trackingId s) (currentPage s) (pageViews s) (pdfDoc s) (pageNum s)
    (pageRendering s) (pageNumPending s) x (sent s).

(** [onPrevPage()] *)
Definition onPrevPage (s : Script) : Script :=
  if (pageNum s <=? 1)%Z then s
  else queueRenderPage (pageNum s - 1) (with_pageNum (pageNum s - 1) s).

(** [onNextPage()]; reading [pdfDoc.numPages] throws while [pdfDoc] is
    null, before anything is changed. *)
Definition onNextPage (s : Script) : Script :=
  match pdfDoc s with
  | None => s
  | Some numPages =>
      if (numPages <=? pageNum s)%Z then s
      else queueRenderPage (pageNum s + 1) (with_pageNum (pageNum s + 1) s)
  end.

(** The literals [0.2] and [0.5]. *)
Definition lit_0_2 : number := div (of_int 1) (of_int 5).
Definition lit_0_5 : number := div (of_int 1) (of_int 2).

(** The zoom-in click handler. *)
Definition zoomIn (s : Script) : Script :=
  queueRenderPage (pageNum s) (with_scale (SFadd prec emax (scale s) lit_0_2) s).

(** The zoom-out click handler. *)
Definition zoomOut (s : Script) : Script :=
  if gt (scale s) lit_0_5 then
    queueRenderPage (pageNum s) (with_scale (SFsub prec emax (scale s) lit_0_2) s)
  else s.

(** The callback run when a page render completes. *)
Definition renderDone (s : Script) : Script :=
  let s1 := mkScript (trackingId s) (currentPage s) (pageViews s) (pdfDoc s)
              (pageNum s) false (pageNumPending s) (scale s) (sent s) in
  match pageNumPending s1 with
  | None => s1
  | Some pending =>
      let s2 := renderPage pending s1 in
      mkScript (trackingId s2) (currentPage s2) (pageViews s2) (pdfDoc s2)
        (pageNum s2) (pageRendering s2) None (scale s2) (sent s2)
  end.

(** The callback run when [getDocument] resolves with a document of
    [numPages] pages. *)
Definition documentLoaded (numPages : Z) (s : Script) : Script :=
  renderPage (pageNum s)
    (mkScript (trackingId s) (currentPage s) (pageViews s) (Some numPages)
       (pageNum s) (pageRendering s) (pageNumPending s) (scale s) (sent s)).

(** What the beforeunload handler reads for the beacon:
    [Array.from(pageViews).length] and [pdfDoc ? pdfDoc.numPages : 0]. *)
Definition pagesViewed (s : Script) : Z := Z.of_nat (length (pageViews s)).
Definition totalPages (s : Script) : Z :=
  match pdfDoc s with
  | None => 0
  | Some numPages => numPages
  end.

(** User and render events (arrow keys call the same handlers as the
    two page buttons). *)
Inductive Event : Type := PrevPage | NextPage | ZoomIn | ZoomOut | RenderDone.

Definition step (ev : Event) (s : Script) : Script :=
  match ev with
  | PrevPage => onPrevPage s
  | NextPage => onNextPage s
  | ZoomIn => zoomIn s
  | ZoomOut => zoomOut s
  | RenderDone => renderDone s
  end.

(** The states of a script for document [tid]: events in any order, the
    document loading at most once. *)
Inductive running (tid : string) : Script -> Prop :=
| run_init : running tid (init tid)
| run_event s ev : running tid s -> running tid (step ev s)
| run_loaded s numPages :
    running tid s -> pdfDoc s = None -> running tid (documentLoaded numPages s).

(** The largest page number the script can be on. *)
Definition lastPage (s : Script) : Z :=
  match pdfDoc s with
  | None => 1
  | Some numPages => Z.max 1 numPages
  end.

(** The invariant of the script. *)
Definition consistent (s : Script) : Prop :=
  NoDup (pageViews s) /\
  sent s = (fun n => POST_track_page (trackingId s) (JNumber (of_int n))) <$> pageViews s /\
  (1 <= pageNum s <= lastPage s)%Z /\
  Forall (fun p => 1 <= p <= lastPage s)%Z (pageViews s) /\
  (forall p, pageNumPending s = Some p -> 1 <= p <= lastPage s)%Z.

End Viewer.

(** The log entry [logAccess] appends for a page view. *)
Definition page_entry (pg : jsval) (req : Req) : AccessLogEntry :=
  mkEntry (now req) page_view (req_ip req) (user_agent req)
    (JSON_roundtrip pg) JUndefined JUndefined JUndefined JUndefined.

(** ** The pixel-tracking server (the second server file)

    The variant of the server that embeds a tracking pixel in the PDF:
    its record store, [logAccess] and its routes.  Whether pdf-lib
    manages to rewrite the uploaded file ([injectTrackingIntoPDF]), and
    with which message it throws otherwise, is an input of the upload
    request.  The multer middleware is the one of the other server. *)

Module Pixel.

Record AccessLog : Type := mkLog {
  timestamp : string;
  ip : option string;
  userAgent : option string
}.

Record TrackingRecord : Type := mkRecord {
  trackingId : string;
  originalName : string;
  trackedFileName : string;
  uploadedAt : string;
  accessLogs : list AccessLog;
  totalOpens : Z;
  trackingUrl : string
}.

Definition TrackingData : Type := list (string * TrackingRecord).

(** The tracking document and the files under [uploads/] and
    [tracked-pdfs/]. *)
Record State : Type := mkState {
  trackingFile : option TrackingData;
  uploads : gset string;
  tracked_pdfs : gset string
}.

Inductive Body : Type :=
| Uploaded (trackingId downloadUrl statsUrl : string)
| Png                              (* the 1x1 transparent pixel *)
| PdfFile (fileName attachment : string)
| RecordJson (r : TrackingRecord)
| AllJson (d : TrackingData)
| Deleted
| ErrorJson (msg : string)
| Text (msg : string).

Record Response : Type := mkResponse {
  status : nat;
  body : Body
}.

Definition getTrackingData (st : State) : TrackingData * State :=
  match trackingFile st with
  | None => ([], mkState (Some []) (uploads st) (tracked_pdfs st))
  | Some data => (data, st)
  end.

Definition saveTrackingData (data : TrackingData) (st : State) : State :=
  mkState (Some data) (uploads st) (tracked_pdfs st).

Definition records (st : State) : TrackingData := fst (getTrackingData st).

(** [logAccess(trackingId, req)] *)
Definition logAccess (id : string) (req : Req) (st : State) : bool * State :=
  let '(trackingData, st1) := getTrackingData st in
  match get trackingData id with
  | None => (false, st1)
  | Some r =>
      let logs := (accessLogs r ++ [mkLog (now req) (req_ip req) (user_agent req)])%list in
      let r' :=
        mkRecord (trackingId r) (originalName r) (trackedFileName r) (uploadedAt r)
          logs (Z.of_nat (length logs)) (trackingUrl r) in
      (true, saveTrackingData (set trackingData id r') st1)
  end.

(** [app.post('/api/upload', upload.single('pdf'), ...)]; [inject] is
    [None] when [injectTrackingIntoPDF] returns and the message of the
    error when it throws. *)
Definition post_upload (part : option FilePart) (uuid_file uuid_track : string)
    (inject : option string) (req : Req) (st : State) : Response * State :=
  match part with
  | None => (mkResponse 400 (ErrorJson "No file uploaded"), st)
  | Some file =>
      if fileFilter file then
        let st0 :=
          mkState (trackingFile st)
            ({[ uuid_file +:+ "-" +:+ originalname file ]} ∪ uploads st)
            (tracked_pdfs st) in
        let id := uuid_track in
        let outputFileName := "tracked-" +:+ id +:+ ".pdf" in
        match host req with
        | None =>
            (mkResponse 500
               (ErrorJson "Cannot read properties of undefined (reading 'includes')"),
             st0)
        | Some h =>
            let serverUrl :=
              if includes h "localhost" then "http://localhost:3000"
              else "http://" +:+ h in
            match inject with
            | Some message => (mkResponse 500 (ErrorJson message), st0)
            | None =>
                let st1 :=
                  mkState (trackingFile st0) (uploads st0)
                    ({[ outputFileName ]} ∪ tracked_pdfs st0) in
                let '(trackingData, st2) := getTrackingData st1 in
                let r :=
                  mkRecord id (originalname file) outputFileName (now req) [] 0
                    (serverUrl +:+ "/track/" +:+ id +:+ ".png") in
                (mkResponse 200
                   (Uploaded id (serverUrl +:+ "/download-tracked/" +:+ id)
                      (serverUrl +:+ "/api/stats/" +:+ id)),
                 saveTrackingData (set trackingData id r) st2)
            end
        end
      else (mkResponse 500 (Text "Only PDF files are allowed!"), st)
  end.

(** [app.get('/track/:trackingId.png')] *)
Definition get_track (id : string) (req : Req) (st : State) : Response * State :=
  let '(_, st1) := logAccess id req st in
  (mkResponse 200 Png, st1).

(** [app.get('/test-track/:trackingId')] *)
Definition get_test_track (id : string) (req : Req) (st : State) : Response * State :=
  let '(_, st1) := logAccess id req st in
  (mkResponse 200 (Text "Tracking event logged! Check your dashboard."), st1).

(** [app.get('/download-tracked/:trackingId')]: as in the other server,
    [setHeader] throws on an original name that is no legal header value
    and the [catch] answers 500. *)
Definition get_download_tracked (id : string) (st : State) : Response * State :=
  let '(trackingData, st1) := getTrackingData st in
  match get trackingData id with
  | None => (mkResponse 404 (Text "PDF not found"), st1)
  | Some r =>
      if bool_decide (trackedFileName r ∈ tracked_pdfs st1) then
        if header_value_ok (originalName r)
        then (mkResponse 200 (PdfFile (trackedFileName r) (originalName r)), st1)
        else (mkResponse 500 (Text "Error downloading PDF"), st1)
      else (mkResponse 404 (Text "PDF file not found"), st1)
  end.

(** [app.get('/api/stats/:trackingId')] *)
Definition get_stats (id : string) (st : State) : Response * State :=
  let '(trackingData, st1) := getTrackingData st in
  match get trackingData id with
  | None => (mkResponse 404 (ErrorJson "PDF not found"), st1)
  | Some r => (mkResponse 200 (RecordJson r), st1)
  end.

(** [app.get('/api/stats')] *)
Definition get_stats_all (st : State) : Response * State :=
  let '(trackingData, st1) := getTrackingData st in
  (mkResponse 200 (AllJson trackingData), st1).

(** [app.delete('/api/delete/:trackingId')] *)
Definition delete_delete (id : string) (st : State) : Response * State :=
  let '(trackingData, st1) := getTrackingData st in
  match get trackingData id with
  | None => (mkResponse 404 (ErrorJson "PDF not found"), st1)
  | Some r =>
      let st2 :=
        if bool_decide (trackedFileName r ∈ tracked_pdfs st1)
        then mkState (trackingFile st1) (uploads st1)
               (tracked_pdfs st1 ∖ {[ trackedFileName r ]})
        else st1 in
      (mkResponse 200 Deleted, saveTrackingData (del trackingData id) st2)
  end.

Inductive Call : Type :=
| POST_upload (part : option FilePart) (uuid_file uuid_track : string)
    (inject : option string)
| GET_track (id : string)
| GET_test_track (id : string)
| GET_download_tracked (id : string)
| GET_stats (id : string)
| GET_stats_all
| DELETE_delete (id : string).

Definition handle (c : Call) (req : Req) (st : State) : Response * State :=
  match c with
  | POST_upload part u1 u2 inject => post_upload part u1 u2 inject req st
  | GET_track id => get_track id req st
  | GET_test_track id => get_test_track id req st
  | GET_download_tracked id => get_download_tracked id st
  | GET_stats id => get_stats id st
  | GET_stats_all => get_stats_all st
  | DELETE_delete id => delete_delete id st
  end.

Inductive reachable : State -> Prop :=
| reach_init st :
    trackingFile st = None \/ trackingFile st = Some [] -> reachable st
| reach_step st c req : reachable st -> reachable (snd (handle c req st)).

Definition st_init : State := mkState None ∅ ∅.

(** What a route answers when the identifier resolves to a member
    inherited from [Object.prototype]: [logAccess] throws on
    [.accessLogs.push] and the pixel and test routes have no [catch];
    download-tracked and delete throw in [path.join] and their [catch]
    answers 500; stats serialises the member. *)
Definition inherited_response (c : Call) : Response :=
  match c with
  | GET_stats id =>
      if String.eqb id "__proto__" then mkResponse 200 (AllJson [])
      else mkResponse 200 (Text EmptyString)
  | GET_download_tracked _ => mkResponse 500 (Text "Error downloading PDF")
  | DELETE_delete _ =>
      mkResponse 500
        (ErrorJson "The 'path' argument must be of type string. Received undefined")
  | _ => mkResponse 500 (Text "Cannot read properties of undefined (reading 'push')")
  end.

Definition looked_up (c : Call) : option string :=
  match c with
  | GET_track id | GET_test_track id | GET_download_tracked id | GET_stats id
  | DELETE_delete id => Some id
  | POST_upload _ _ _ _ | GET_stats_all => None
  end.

(** The pixel-tracking server on any request. *)
Definition serve (c : Call) (req : Req) (st : State) : Response * State :=
  match looked_up c with
  | Some id =>
      if resolves_inherited (records st) id
      then (inherited_response c, snd (getTrackingData st))
      else handle c req st
  | None => handle c req st
  end.

End Pixel.
(** * Properties *)

(** ** Objects *)

Section ObjFacts.

Context {V : Type}.
Implicit Types (o : list (string * V)) (k : string) (v : V).

Lemma eqb_string_true k : String.eqb k k = true.
Proof. apply String.eqb_refl. Qed.

Lemma eqb_string_false k k' : k <> k' -> String.eqb k k' = false.
Proof. intros H. by apply String.eqb_neq. Qed.

Lemma get_set_eq o k v : get (set o k v) k = Some v.
Proof.
  induction o as [|[k' v'] o IH]; simpl.
  - by rewrite eqb_string_true.
  - destruct (String.eqb k' k) eqn:E; simpl; by rewrite E.
Qed.

Lemma get_set_ne o k k' v : k <> k' -> get (set o k v) k' = get o k'.
Proof.
  intros Hne. induction o as [|[k0 v0] o IH]; simpl.
  - by rewrite eqb_string_false.
  - destruct (String.eqb k0 k) eqn:E; simpl.
    + apply String.eqb_eq in E as ->. by rewrite eqb_string_false.
    + by rewrite IH.
Qed.

Lemma get_del_eq o k : get (del o k) k = None.
Proof.
  induction o as [|[k0 v0] o IH]; simpl; [done|].
  destruct (String.eqb k0 k) eqn:E; simpl; [done|]. by rewrite E.
Qed.

Lemma get_del_ne o k k' : k <> k' -> get (del o k) k' = get o k'.
Proof.
  intros Hne. induction o as [|[k0 v0] o IH]; simpl; [done|].
  destruct (String.eqb k0 k) eqn:E; simpl.
  - apply String.eqb_eq in E as ->. by rewrite eqb_string_false.
  - by rewrite IH.
Qed.

Lemma get_Some_elem o k v : get o k = Some v -> (k, v) ∈ o.
Proof.
  induction o as [|[k0 v0] o IH]; simpl; [done|].
  destruct (String.eqb k0 k) eqn:E.
  - apply String.eqb_eq in E as ->. intros [= ->]. left.
  - intros H. right. by apply IH.
Qed.

Lemma get_None_keys o k : get o k = None <-> k ∉ keys o.
Proof.
  induction o as [|[k0 v0] o IH]; simpl.
  - split; [intros _; apply not_elem_of_nil | done].
  - destruct (String.eqb k0 k) eqn:E.
    + apply String.eqb_eq in E as ->. split; [done|]. intros H. destruct H. left.
    + apply String.eqb_neq in E. rewrite IH, not_elem_of_cons.
      split; [intros ?; split; [congruence | done] | by intros [_ ?]].
Qed.

Lemma elem_get o k v : distinct_keys o -> (k, v) ∈ o -> get o k = Some v.
Proof.
  unfold distinct_keys. induction o as [|[k0 v0] o IH]; simpl.
  - intros _ H. by apply elem_of_nil in H.
  - intros [Hk0 Hnd]%NoDup_cons [[= -> ->]|Hin]%elem_of_cons.
    + by rewrite eqb_string_true.
    + destruct (String.eqb k0 k) eqn:E; [|by apply IH].
      apply String.eqb_eq in E as ->. destruct Hk0.
      apply list_elem_of_fmap. by exists (k, v).
Qed.

Lemma keys_set_in o k v : k ∈ keys o -> keys (set o k v) = keys o.
Proof.
  induction o as [|[k0 v0] o IH]; simpl.
  - intros H. by apply elem_of_nil in H.
  - destruct (String.eqb k0 k) eqn:E; simpl; [done|].
    apply String.eqb_neq in E. intros [?|Hin]%elem_of_cons; [congruence|].
    by rewrite IH.
Qed.

Lemma keys_set_notin o k v : k ∉ keys o -> keys (set o k v) = (keys o ++ [k])%list.
Proof.
  induction o as [|[k0 v0] o IH]; simpl; [done|].
  intros [Hne Hnin]%not_elem_of_cons.
  rewrite eqb_string_false by done. simpl. by rewrite IH.
Qed.

Lemma distinct_keys_set o k v : distinct_keys o -> distinct_keys (set o k v).
Proof.
  unfold distinct_keys. intros Hnd.
  destruct (decide (k ∈ keys o)) as [Hin|Hnin].
  - by rewrite keys_set_in.
  - rewrite keys_set_notin by done. apply NoDup_app. split_and!; [done| |].
    + intros x Hx ->%list_elem_of_singleton. done.
    + apply NoDup_singleton.
Qed.

Lemma keys_del_subset o k x : x ∈ keys (del o k) -> x ∈ keys o.
Proof.
  induction o as [|[k0 v0] o IH]; simpl; [done|].
  destruct (String.eqb k0 k); simpl.
  - intros H. right. by apply IH.
  - intros [->|H]%elem_of_cons; [left | right; by apply IH].
Qed.

Lemma distinct_keys_del o k : distinct_keys o -> distinct_keys (del o k).
Proof.
  unfold distinct_keys. induction o as [|[k0 v0] o IH]; simpl; [done|].
  intros [Hk0 Hnd]%NoDup_cons. destruct (String.eqb k0 k); simpl; [by apply IH|].
  apply NoDup_cons. split; [|by apply IH].
  intros H. apply Hk0. by eapply keys_del_subset.
Qed.

Lemma entries_find_Some p o k v :
  entries_find p o = Some (k, v) -> (k, v) ∈ o /\ p v = true.
Proof.
  induction o as [|[k0 v0] o IH]; simpl; [done|].
  destruct (p v0) eqn:E.
  - intros [= -> ->]. split; [left | done].
  - intros H. destruct (IH H). split; [by right | done].
Qed.

(** On an object, the entry that [find] returns is the one its key reads. *)
Lemma entries_find_get p o k v :
  distinct_keys o -> entries_find p o = Some (k, v) -> get o k = Some v /\ p v = true.
Proof.
  intros Hnd [Hin Hp]%entries_find_Some. split; [by apply elem_get | done].
Qed.

Lemma entries_find_None p o :
  entries_find p o = None <-> (forall k v, (k, v) ∈ o -> p v = false).
Proof.
  induction o as [|[k0 v0] o IH]; simpl.
  - split; [|done]. intros _ k v H. by apply elem_of_nil in H.
  - destruct (p v0) eqn:E.
    + split; [done|]. intros H. specialize (H k0 v0 ltac:(left)). congruence.
    + rewrite IH. split.
      * intros H k v [[= -> ->]|Hin]%elem_of_cons; [done | by eapply H].
      * intros H k v Hin. eapply H. by right.
Qed.

Lemma elem_del o k k' v : (k', v) ∈ del o k -> (k', v) ∈ o /\ k' <> k.
Proof.
  induction o as [|[k0 v0] o IH]; simpl.
  - intros H. by apply elem_of_nil in H.
  - destruct (String.eqb k0 k) eqn:E.
    + intros H. destruct (IH H). split; [by right | done].
    + apply String.eqb_neq in E.
      intros [[= -> ->]|Hin]%elem_of_cons; [split; [left | done]|].
      destruct (IH Hin). split; [by right | done].
Qed.

End ObjFacts.

(** ** Numbers: the model against known values of the language *)

Example Math_round_half_up :
  Math_round (div (of_int 5) (of_int 2)) = of_int 3 /\
  Math_round (div (of_int (-3)) (of_int 2)) = of_int (-1) /\
  Math_round (div (of_int (-1)) (of_int 2)) = S754_zero true /\
  Math_round (div (of_int 1) (of_int 4)) = zero /\
  Math_round NaN = NaN.
Proof. split_and!; reflexivity. Qed.

(** [29 / 200 * 100] is [14.499999999999998] in binary64, so the
    percentage of 29 pages out of 200 is 14. *)
Example completion_29_of_200 :
  completion_of (JNumber (of_int 29)) (JNumber (of_int 200)) = of_int 14.
Proof. reflexivity. Qed.

Example completion_no_pages :
  completion_of (JNumber (of_int 0)) (JNumber (of_int 0)) = of_int 0 /\
  completion_of JUndefined JUndefined = of_int 0.
Proof. split; reflexivity. Qed.

Example split_dash_0_uuid : split_dash_0 id_a = "aaaaaaaa".
Proof. reflexivity. Qed.

Example includes_localhost :
  includes "localhost:3000" "localhost" = true /\
  includes "tracker.example.org" "localhost" = false.
Proof. split; reflexivity. Qed.

(** ** Loading and saving the document *)

Lemma getTrackingData_eq st : getTrackingData st = (records st, loaded st).
Proof. unfold records, loaded. by destruct (getTrackingData st). Qed.

Lemma records_loaded st : records (loaded st) = records st.
Proof. by destruct st as [[d|] u]. Qed.

Lemma uploads_loaded st : uploads (loaded st) = uploads st.
Proof. by destruct st as [[d|] u]. Qed.

Lemma loaded_idemp st : loaded (loaded st) = loaded st.
Proof. by destruct st as [[d|] u]. Qed.

Lemma loaded_existing st d : trackingFile st = Some d -> loaded st = st.
Proof. destruct st as [[d0|] u]; by intros [=]. Qed.

Lemma records_save d st : records (saveTrackingData d st) = d.
Proof. done. Qed.

Lemma uploads_save d st : uploads (saveTrackingData d st) = uploads st.
Proof. done. Qed.

Lemma existsSync_loaded f st : existsSync f (loaded st) = existsSync f st.
Proof. unfold existsSync. by rewrite uploads_loaded. Qed.

(** ** The last element of a log *)

Lemma lookup_last_index {A} (l : list A) : l !! (length l - 1)%nat = last l.
Proof. by rewrite last_lookup, Nat.sub_1_r. Qed.

Lemma last_insert_last {A} (l : list A) (x y : A) :
  last l = Some x -> last (<[(length l - 1)%nat := y]> l) = Some y.
Proof.
  intros Hl. rewrite last_lookup, length_insert, <- Nat.sub_1_r.
  apply list_lookup_insert_eq.
  destruct l; [done | simpl; lia].
Qed.

(** ** The effect of the three handlers that write *)

Lemma logAccess_found id act req pg st r :
  get (records st) id = Some r ->
  logAccess id act req pg st =
    (true, saveTrackingData (set (records st) id (logged act req pg r)) (loaded st)).
Proof.
  intros Hr. unfold logAccess. rewrite getTrackingData_eq, Hr. by destruct act.
Qed.

Lemma logAccess_unknown id act req pg st :
  get (records st) id = None -> logAccess id act req pg st = (false, loaded st).
Proof. intros Hr. unfold logAccess. by rewrite getTrackingData_eq, Hr. Qed.

Lemma post_track_session_eq id ts pv tp st :
  post_track_session id ts pv tp st =
    (mkResponse 200 Success, session_state id ts pv tp st).
Proof.
  unfold post_track_session, session_state. rewrite getTrackingData_eq.
  f_equal. destruct (get (records st) id) as [r|]; [|done].
  rewrite lookup_last_index.
  destruct (accessLogs r) as [|e l] eqn:El; [done|].
  replace (0 <? length (e :: l))%nat with true; [done|].
  symmetry. apply Nat.ltb_lt. simpl. lia.
Qed.

Lemma Action_eqb_eq a b : Action_eqb a b = true <-> a = b.
Proof. destruct a, b; simpl; split; congruence. Qed.

Lemma Action_eqb_view_false a : a <> view -> Action_eqb a view = false.
Proof. by destruct a. Qed.

Lemma get_Some_keys {V} (o : list (string * V)) k v : get o k = Some v -> k ∈ keys o.
Proof.
  intros H. destruct (decide (k ∈ keys o)) as [|Hn]; [done|].
  apply get_None_keys in Hn. congruence.
Qed.

(** ** Session summaries (track-session) *)

(** A number equal to 0 (either zero) is not greater than 0. *)
Lemma eq_zero_not_gt x : SFeqb x (of_int 0) = true -> gt x (of_int 0) = false.
Proof. by destruct x as [[|]|[|]| |[|] m e]. Qed.

(** C1 (as amended): when the addressed record's last log entry is a view
    entry, the completion that track-session stores in it is
    [Math.round((pagesViewed / totalPages) * 100)] if [totalPages > 0],
    and 0 in every other case (not greater than 0: negative or not a
    number, and in particular when [totalPages] is 0); the value is read
    back as JSON serialises it. *)
Theorem C1_completion_written st id ts pv tp r e :
  get (records st) id = Some r ->
  last (accessLogs r) = Some e ->
  action e = view ->
  let written := completion_written id (snd (post_track_session id ts pv tp st)) in
  (gt (ToNumber tp) (of_int 0) = true ->
     written = Some (JSON_roundtrip (JNumber
       (Math_round (mul (div (ToNumber pv) (ToNumber tp)) (of_int 100)))))) /\
  (gt (ToNumber tp) (of_int 0) = false -> written = Some (JNumber (of_int 0))) /\
  (SFeqb (ToNumber tp) (of_int 0) = true -> written = Some (JNumber (of_int 0))).
Proof.
  intros Hr He Hview written. subst written.
  rewrite post_track_session_eq. unfold session_state, completion_written.
  rewrite Hr, He, Hview. cbn [Action_eqb snd].
  rewrite records_save, get_set_eq. cbn [accessLogs with_accessLogs].
  erewrite last_insert_last by done. cbn [completion attach_session].
  unfold completion_of. split_and!.
  - by intros ->.
  - by intros ->.
  - intros Hz. by rewrite (eq_zero_not_gt _ Hz).
Qed.

Lemma C1_completion_written_witness :
  completion_written id_a
    (snd (post_track_session id_a (JNumber (of_int 12)) (JNumber (of_int 1))
            (JNumber (of_int 3)) st_viewed))
  = Some (JNumber (of_int 33)).
Proof.
  destruct (C1_completion_written st_viewed id_a (JNumber (of_int 12))
              (JNumber (of_int 1)) (JNumber (of_int 3))
              (logged view req0 JUndefined
                 (mkRecord id_a "aaaaaaaa" "report.pdf"
                    "f0000000-0000-4000-8000-000000000000-report.pdf"
                    "2025-01-01T00:00:00.000Z" [] 0 0 true
                    "http://localhost:3000/v/aaaaaaaa"))
              (mkEntry "2025-01-01T00:00:00.000Z" view (Some "::1")
                 (Some "Mozilla/5.0") JUndefined JUndefined JUndefined
                 JUndefined JUndefined))
    as (Hpos & _ & _); [reflexivity | reflexivity | reflexivity |].
  rewrite Hpos; reflexivity.
Defined.

(** C1 as the specification words it fails for a negative [totalPages]:
    with [pagesViewed = 1] and [totalPages = -1] on a record whose last
    entry is a view, the handler stores 0 where the formula gives -100. *)
Lemma C1_counterexample_negative_totalPages :
  let pv := JNumber (of_int 1) in
  let tp := JNumber (of_int (-1)) in
  let st' := snd (post_track_session id_a (JNumber (of_int 12)) pv tp st_viewed) in
  (exists r e, get (records st_viewed) id_a = Some r /\
               last (accessLogs r) = Some e /\ action e = view) /\
  completion_written id_a st' = Some (JNumber (of_int 0)) /\
  JSON_roundtrip (JNumber (spec_completion pv tp)) = JNumber (of_int (-100)) /\
  completion_written id_a st' <> Some (JSON_roundtrip (JNumber (spec_completion pv tp))).
Proof.
  split_and!.
  - eexists _, _. split_and!; reflexivity.
  - reflexivity.
  - reflexivity.
  - vm_compute. discriminate.
Qed.

Lemma with_accessLogs_same r : with_accessLogs (accessLogs r) r = r.
Proof. by destruct r. Qed.

(** C2 (as amended): track-session rewrites the last log entry of the
    addressed record when that entry is a view, and only then; it never
    appends.  Whatever the store and the request, every record [r] of the
    store is still there afterwards, as [r']: the keys of the store are
    the same, the log has the same length, every entry except the one at
    the last index is the same, and nothing but the log differs; records
    other than the addressed one are identical.  When the addressed
    record's last entry is a view, that entry is rewritten in place:
    [timeSpent], [pagesViewed] and [totalPages] receive the values of the
    request and [completion] the computed percentage (as JSON serialises
    them), while timestamp, action, ip, user agent and page keep their
    values.  When the last entry is not a view, or the log is empty, the
    record is identical: a view entry further up the log is not
    touched. *)
Theorem C2_session_rewrites_last_view st id ts pv tp k r :
  get (records st) k = Some r ->
  let st' := snd (post_track_session id ts pv tp st) in
  keys (records st') = keys (records st) /\
  exists r',
    get (records st') k = Some r' /\
    length (accessLogs r') = length (accessLogs r) /\
    (forall i, i <> (length (accessLogs r) - 1)%nat ->
               accessLogs r' !! i = accessLogs r !! i) /\
    with_accessLogs (accessLogs r) r' = r /\
    (k <> id -> r' = r) /\
    (forall e, k = id -> last (accessLogs r) = Some e -> action e = view ->
       exists e',
         last (accessLogs r') = Some e' /\
         timeSpent e' = JSON_roundtrip ts /\
         pagesViewed e' = JSON_roundtrip pv /\
         totalPages e' = JSON_roundtrip tp /\
         completion e' = JSON_roundtrip (JNumber (completion_of pv tp)) /\
         timestamp e' = timestamp e /\ action e' = view /\ ip e' = ip e /\
         userAgent e' = userAgent e /\ page e' = page e) /\
    (forall e, last (accessLogs r) = Some e -> action e <> view -> r' = r) /\
    (accessLogs r = [] -> r' = r).
Proof.
  intros Hk st'. subst st'.
  rewrite post_track_session_eq. cbn [snd]. unfold session_state.
  assert (Hsame : keys (records (loaded st)) = keys (records st) /\
            exists r', get (records (loaded st)) k = Some r' /\
              length (accessLogs r') = length (accessLogs r) /\
              (forall i, i <> (length (accessLogs r) - 1)%nat ->
                         accessLogs r' !! i = accessLogs r !! i) /\
              with_accessLogs (accessLogs r) r' = r /\ r' = r).
  { rewrite records_loaded. split; [done|]. exists r.
    split_and!; auto using with_accessLogs_same. }
  destruct (get (records st) id) as [r0|] eqn:Hid.
  2:{ destruct Hsame as (? & r' & ? & ? & ? & ? & ->).
      split; [done|]. exists r. split_and!; auto. intros e ->. congruence. }
  destruct (last (accessLogs r0)) as [e0|] eqn:Hlast.
  2:{ destruct Hsame as (? & r' & ? & ? & ? & ? & ->).
      split; [done|]. exists r. split_and!; auto. intros e ->. congruence. }
  destruct (Action_eqb (action e0) view) eqn:Hact.
  2:{ destruct Hsame as (? & r' & ? & ? & ? & ? & ->).
      split; [done|]. exists r. split_and!; auto.
      intros e -> He Hv. assert (e = e0) as -> by congruence.
      apply Action_eqb_eq in Hv. congruence. }
  clear Hsame. apply Action_eqb_eq in Hact. rewrite records_save. split.
  { apply keys_set_in. by eapply get_Some_keys. }
  destruct (decide (k = id)) as [->|Hne].
  - assert (r0 = r) as -> by congruence.
    eexists. split; [apply get_set_eq|]. cbn [accessLogs with_accessLogs].
    split_and!.
    + apply length_insert.
    + intros i Hi. by apply list_lookup_insert_ne.
    + by destruct r.
    + done.
    + intros e _ He _. assert (e = e0) as -> by congruence.
      exists (attach_session ts pv tp e0).
      split; [by eapply last_insert_last|]. by split_and!.
    + intros e He Hv. congruence.
    + intros Hnil. by rewrite Hnil in Hlast.
  - exists r. split; [by rewrite get_set_ne|].
    split_and!; auto using with_accessLogs_same; congruence.
Qed.

Lemma C2_session_rewrites_last_view_witness :
  let st' := snd (post_track_session id_a (JNumber (of_int 12)) (JNumber (of_int 1))
                    (JNumber (of_int 3)) st_viewed) in
  exists r r' e',
    get (records st_viewed) id_a = Some r /\
    get (records st') id_a = Some r' /\
    length (accessLogs r') = length (accessLogs r) /\
    last (accessLogs r') = Some e' /\
    timeSpent e' = JNumber (of_int 12) /\
    pagesViewed e' = JNumber (of_int 1) /\
    totalPages e' = JNumber (of_int 3) /\
    completion e' = JNumber (of_int 33).
Proof.
  pose (e := mkEntry "2025-01-01T00:00:00.000Z" view (Some "::1") (Some "Mozilla/5.0")
               JUndefined JUndefined JUndefined JUndefined JUndefined).
  pose (r := logged view req0 JUndefined
               (mkRecord id_a "aaaaaaaa" "report.pdf"
                  "f0000000-0000-4000-8000-000000000000-report.pdf"
                  "2025-01-01T00:00:00.000Z" [] 0 0 true
                  "http://localhost:3000/v/aaaaaaaa")).
  assert (Hr : get (records st_viewed) id_a = Some r) by reflexivity.
  destruct (C2_session_rewrites_last_view st_viewed id_a (JNumber (of_int 12))
              (JNumber (of_int 1)) (JNumber (of_int 3)) id_a r Hr)
    as (_ & r' & Hr' & Hlen & _ & _ & _ & Hview & _).
  destruct (Hview e) as (e' & He' & Hts & Hpv & Htp & Hc & _);
    [reflexivity | reflexivity | reflexivity |].
  exists r, r', e'.
  split; [exact Hr|]. split; [exact Hr'|]. split; [exact Hlen|]. split; [exact He'|].
  split; [exact Hts|]. split; [exact Hpv|]. split; [exact Htp|]. exact Hc.
Defined.

(** C2 as the specification words it fails when the most recent view
    entry is not the last entry of the log.  In [st_paged] the log is a
    view followed by a page view (what the viewer script produces as soon
    as the first page is displayed): a track-session request for the
    record leaves the record exactly as it was, and its most recent view
    entry still has no [timeSpent]. *)
Lemma C2_counterexample_view_not_last :
  let st' := snd (post_track_session id_a (JNumber (of_int 12)) (JNumber (of_int 1))
                    (JNumber (of_int 3)) st_paged) in
  exists r e_view e_last,
    get (records st_paged) id_a = Some r /\
    accessLogs r = [e_view; e_last] /\
    action e_view = view /\ action e_last = page_view /\
    get (records st') id_a = Some r /\
    timeSpent e_view = JUndefined /\
    timeSpent e_view <> JSON_roundtrip (JNumber (of_int 12)).
Proof.
  eexists _, _, _. split_and!; try reflexivity. discriminate.
Qed.

(** ** Views and page views *)

Lemma get_v_found st sid req id r :
  distinct_keys (records st) ->
  entries_find (fun d => String.eqb (shortId d) sid) (records st) = Some (id, r) ->
  get_v sid req st =
    (mkResponse 200 (ViewerPage id),
     saveTrackingData (set (records st) id (logged view req JUndefined r)) (loaded st)).
Proof.
  intros Hnd Hfind. unfold get_v. rewrite getTrackingData_eq, Hfind.
  apply entries_find_get in Hfind as [Hget _]; [|done].
  rewrite (logAccess_found _ _ _ _ _ r) by by rewrite records_loaded.
  by rewrite records_loaded, loaded_idemp.
Qed.

(** C3: a viewer request that resolves to record [r] (stored under [id])
    answers with the viewer page, appends exactly one entry, of action
    view, to the log of that record, adds one to its [totalViews] and
    leaves its [totalDownloads], and every other record, as they were. *)
Theorem C3_view_counted_once st sid req id r :
  distinct_keys (records st) ->
  entries_find (fun d => String.eqb (shortId d) sid) (records st) = Some (id, r) ->
  let st' := snd (get_v sid req st) in
  fst (get_v sid req st) = mkResponse 200 (ViewerPage id) /\
  exists r' e,
    get (records st') id = Some r' /\
    action e = view /\
    accessLogs r' = (accessLogs r ++ [e])%list /\
    totalViews r' = totalViews r + 1 /\
    totalDownloads r' = totalDownloads r /\
    (forall k, k <> id -> get (records st') k = get (records st) k).
Proof.
  intros Hnd Hfind st'. subst st'. rewrite (get_v_found _ _ _ _ _ Hnd Hfind).
  cbn [fst snd]. split; [done|]. rewrite records_save.
  eexists _, _. split; [apply get_set_eq|].
  cbn [logged incr_totalViews push_log accessLogs totalViews totalDownloads].
  split_and!; [| reflexivity | reflexivity | reflexivity |]; [reflexivity|].
  intros k Hk. by apply get_set_ne.
Qed.

Lemma C3_view_counted_once_witness :
  exists r r',
    get (records st_uploaded) id_a = Some r /\
    get (records (snd (get_v "aaaaaaaa" req0 st_uploaded))) id_a = Some r' /\
    totalViews r' = totalViews r + 1.
Proof.
  pose (r := mkRecord id_a "aaaaaaaa" "report.pdf"
               "f0000000-0000-4000-8000-000000000000-report.pdf"
               "2025-01-01T00:00:00.000Z" [] 0 0 true
               "http://localhost:3000/v/aaaaaaaa").
  assert (Hnd : distinct_keys (records st_uploaded)).
  { vm_compute. apply NoDup_singleton. }
  assert (Hfind : entries_find (fun d => String.eqb (shortId d) "aaaaaaaa")
                    (records st_uploaded) = Some (id_a, r)) by reflexivity.
  destruct (C3_view_counted_once st_uploaded "aaaaaaaa" req0 id_a r Hnd Hfind)
    as (_ & r' & e & Hr' & _ & _ & Hviews & _).
  exists r, r'. split; [reflexivity | split; [exact Hr' | exact Hviews]].
Defined.

Lemma post_track_page_found st id pg req r :
  get (records st) id = Some r ->
  post_track_page id pg req st =
    (mkResponse 200 Success,
     saveTrackingData (set (records st) id (logged page_view req pg r)) (loaded st)).
Proof.
  intros Hr. unfold post_track_page. by rewrite (logAccess_found _ _ _ _ _ r).
Qed.

(** C8: no deduplication on the server.  On a record of the store each
    track-page request appends one page_view entry carrying the page it
    was sent, and changes no counter; two requests with the same
    identifier and the same page leave two such entries, in order. *)
Theorem C8_track_page_appends_each_call st id pg req1 req2 r :
  get (records st) id = Some r ->
  let st1 := snd (post_track_page id pg req1 st) in
  let st2 := snd (post_track_page id pg req2 st1) in
  exists e1 e2 r1 r2,
    get (records st1) id = Some r1 /\
    get (records st2) id = Some r2 /\
    accessLogs r1 = (accessLogs r ++ [e1])%list /\
    accessLogs r2 = (accessLogs r ++ [e1; e2])%list /\
    action e1 = page_view /\ action e2 = page_view /\
    page e1 = JSON_roundtrip pg /\ page e2 = JSON_roundtrip pg /\
    totalViews r2 = totalViews r /\ totalDownloads r2 = totalDownloads r.
Proof.
  intros Hr st1 st2. subst st1 st2.
  rewrite (post_track_page_found _ _ _ req1 r Hr). cbn [snd].
  erewrite post_track_page_found
    by (rewrite records_save; apply get_set_eq).
  cbn [snd]. rewrite !records_save.
  eexists _, _, _, _. split; [apply get_set_eq|]. split; [apply get_set_eq|].
  cbn [logged push_log accessLogs totalViews totalDownloads].
  rewrite <- app_assoc. split_and!; reflexivity.
Qed.

Lemma C8_track_page_appends_each_call_witness :
  exists r r2,
    get (records st_viewed) id_a = Some r /\
    get (records (snd (post_track_page id_a (JNumber (of_int 1)) req0
                         (snd (post_track_page id_a (JNumber (of_int 1)) req0
                                 st_viewed)))))
        id_a = Some r2 /\
    length (accessLogs r2) = (length (accessLogs r) + 2)%nat.
Proof.
  pose (r := logged view req0 JUndefined
               (mkRecord id_a "aaaaaaaa" "report.pdf"
                  "f0000000-0000-4000-8000-000000000000-report.pdf"
                  "2025-01-01T00:00:00.000Z" [] 0 0 true
                  "http://localhost:3000/v/aaaaaaaa")).
  assert (Hr : get (records st_viewed) id_a = Some r) by reflexivity.
  destruct (C8_track_page_appends_each_call st_viewed id_a (JNumber (of_int 1))
              req0 req0 r Hr)
    as (e1 & e2 & r1 & r2 & _ & Hr2 & _ & Hlogs & _).
  exists r, r2. split; [exact Hr | split; [exact Hr2 |]].
  rewrite Hlogs, length_app. reflexivity.
Defined.

(** ** Upload *)

(** A successful upload answers with the uuid drawn for the record and
    stores a fresh record under it. *)
Lemma post_upload_success part u1 u2 req st id sid link stats st' :
  post_upload part u1 u2 req st = (mkResponse 200 (UploadOk id sid link stats), st') ->
  id = u2 /\
  exists r, get (records st') id = Some r /\
            accessLogs r = [] /\ totalViews r = 0 /\ totalDownloads r = 0 /\
            trackingId r = id /\ shortId r = split_dash_0 id.
Proof.
  unfold post_upload. destruct (upload_single part u1 st) as [[[file|] st0]|]; try done.
  destruct (host req) as [h|]; [|done].
  rewrite getTrackingData_eq. intros [= <- <- <- <- <-].
  split; [done|]. rewrite records_save. eexists. split; [apply get_set_eq|]. done.
Qed.

(** C4: right after a successful upload, the stats request for the
    returned identifier answers with a record that has no views, no
    downloads and an empty log. *)
Theorem C4_stats_after_upload part u1 u2 req st id sid link stats st' :
  post_upload part u1 u2 req st = (mkResponse 200 (UploadOk id sid link stats), st') ->
  exists r,
    fst (get_stats id st') = mkResponse 200 (RecordJson r) /\
    totalViews r = 0 /\ totalDownloads r = 0 /\ accessLogs r = [].
Proof.
  intros (_ & r & Hr & Hlogs & Hv & Hd & _)%post_upload_success.
  exists r. unfold get_stats. rewrite getTrackingData_eq, Hr. done.
Qed.

Lemma C4_stats_after_upload_witness :
  exists r,
    fst (get_stats id_a st_uploaded) = mkResponse 200 (RecordJson r) /\
    totalViews r = 0 /\ totalDownloads r = 0 /\ accessLogs r = [].
Proof.
  apply (C4_stats_after_upload (Some pdf_part)
           "f0000000-0000-4000-8000-000000000000" id_a req0 st_init
           id_a "aaaaaaaa" "http://localhost:3000/v/aaaaaaaa"
           "http://localhost:3000/api/stats/aaaaaaaa-1111-4111-8111-111111111111").
  reflexivity.
Defined.

(** C5: an upload whose file part declares a content type other than
    [application/pdf] is refused by the file filter: the request ends
    with an error and the state (records and stored files) is exactly
    the one before. *)
Theorem C5_non_pdf_rejected file u1 u2 req st :
  mimetype file <> "application/pdf" ->
  status (fst (post_upload (Some file) u1 u2 req st)) = 500%nat /\
  snd (post_upload (Some file) u1 u2 req st) = st.
Proof.
  intros Hm. unfold post_upload, upload_single, fileFilter.
  by rewrite eqb_string_false.
Qed.

Lemma C5_non_pdf_rejected_witness :
  status (fst (post_upload (Some txt_part) "f0" id_c req0 st_uploaded)) = 500%nat /\
  snd (post_upload (Some txt_part) "f0" id_c req0 st_uploaded) = st_uploaded.
Proof.
  apply (C5_non_pdf_rejected txt_part "f0" id_c req0 st_uploaded). discriminate.
Defined.

(** ** What a request can do to the document *)

Lemma records_writeFile f st : records (writeFile f st) = records st.
Proof. by destruct st as [[d|] u]. Qed.

Lemma records_unlinkSync f st : records (unlinkSync f st) = records st.
Proof. by destruct st as [[d|] u]. Qed.

Lemma logAccess_change c id act req pg st :
  store_change c (records st) (records (snd (logAccess id act req pg st))).
Proof.
  destruct (get (records st) id) as [r|] eqn:Hr.
  - rewrite (logAccess_found _ _ _ _ _ r Hr). cbn [snd]. rewrite records_save.
    by apply change_log.
  - rewrite logAccess_unknown by done. cbn [snd]. rewrite records_loaded.
    apply change_none.
Qed.

Lemma handle_store_change c req st :
  store_change c (records st) (records (snd (handle c req st))).
Proof.
  destruct c as [part u1 u2|sid|id|id|id|id pg|id ts pv tp|id| |id]; cbn [handle].
  - unfold post_upload, upload_single.
    destruct part as [file|]; [destruct (fileFilter file)|]; cbn [snd];
      try apply change_none.
    destruct (host req) as [h|];
      [|cbn [snd]; rewrite records_writeFile; apply change_none].
    rewrite getTrackingData_eq. cbn [snd]. rewrite records_save, records_writeFile.
    by eapply change_upload.
  - unfold get_v. rewrite getTrackingData_eq.
    destruct (entries_find _ _) as [[id r]|].
    + pose proof (logAccess_change (GET_v sid) id view req JUndefined (loaded st)) as H.
      rewrite records_loaded in H.
      by destruct (logAccess id view req JUndefined (loaded st)).
    + cbn [snd]. rewrite records_loaded. apply change_none.
  - unfold get_pdf. rewrite getTrackingData_eq.
    destruct (get (records st) id) as [r|]; [destruct (existsSync _ _)|];
      cbn [snd]; rewrite records_loaded; apply change_none.
  - unfold get_download. rewrite getTrackingData_eq.
    destruct (get (records st) id) as [r|];
      [destruct (existsSync _ _); [destruct (header_value_ok _)|]|];
      cbn [snd]; rewrite records_loaded; apply change_none.
  - unfold post_log_download.
    pose proof (logAccess_change (POST_log_download id) id download req JUndefined st).
    by destruct (logAccess id download req JUndefined st).
  - unfold post_track_page.
    pose proof (logAccess_change (POST_track_page id pg) id page_view req pg st).
    by destruct (logAccess id page_view req pg st).
  - rewrite post_track_session_eq. cbn [snd]. unfold session_state.
    destruct (get (records st) id) as [r|] eqn:Hr;
      [|rewrite records_loaded; apply change_none].
    destruct (last (accessLogs r)) as [e|] eqn:He;
      [|rewrite records_loaded; apply change_none].
    destruct (Action_eqb (action e) view) eqn:Hv;
      [|rewrite records_loaded; apply change_none].
    rewrite records_save. apply change_session; [done..|by apply Action_eqb_eq].
  - unfold get_stats. rewrite getTrackingData_eq.
    destruct (get (records st) id) as [r|];
      cbn [snd]; rewrite records_loaded; apply change_none.
  - unfold get_stats_all. rewrite getTrackingData_eq. cbn [snd].
    rewrite records_loaded. apply change_none.
  - unfold delete_delete. rewrite getTrackingData_eq.
    destruct (get (records st) id) as [r|].
    + cbn [snd]. rewrite records_save. apply change_delete.
    + cbn [snd]. rewrite records_loaded. apply change_none.
Qed.

Lemma elem_set {V} (o : list (string * V)) k v k' v' :
  (k', v') ∈ set o k v -> (k', v') = (k, v) \/ (k', v') ∈ o.
Proof.
  induction o as [|[k0 v0] o IH]; simpl.
  - intros ->%list_elem_of_singleton. by left.
  - destruct (String.eqb k0 k) eqn:E.
    + apply String.eqb_eq in E as ->.
      intros [->|Hin]%elem_of_cons; [by left | right; by right].
    + intros [->|Hin]%elem_of_cons; [right; left|].
      destruct (IH Hin); [by left | right; by right].
Qed.

Lemma Forall_set {V} (P : string * V -> Prop) o k v :
  Forall P o -> P (k, v) -> Forall P (set o k v).
Proof.
  rewrite !Forall_forall. intros Ho Pv [k' v'] Hin.
  apply elem_set in Hin as [->|Hin]; auto.
Qed.

Lemma Forall_del {V} (P : string * V -> Prop) o k :
  Forall P o -> Forall P (del o k).
Proof.
  rewrite !Forall_forall. intros Ho [k' v'] Hin.
  apply elem_del in Hin as [Hin _]. auto.
Qed.

(** ** The counters and the log *)

Lemma count_action_app a l1 l2 :
  count_action a (l1 ++ l2) = (count_action a l1 + count_action a l2)%nat.
Proof. unfold count_action. by rewrite List.filter_app, length_app. Qed.

Lemma count_action_insert a l i e e' :
  l !! i = Some e -> action e' = action e ->
  count_action a (<[i := e']> l) = count_action a l.
Proof.
  unfold count_action. revert i. induction l as [|x l IH]; intros [|i]; simpl; try done.
  - intros [= ->] ->. by destruct (Action_eqb _ a).
  - intros Hi Ha. specialize (IH i Hi Ha).
    destruct (Action_eqb (action x) a); simpl; by rewrite IH.
Qed.

Lemma counters_agree_logged act req pg r :
  counters_agree r -> counters_agree (logged act req pg r).
Proof.
  unfold counters_agree. intros [Hv Hd].
  destruct act; cbn [logged incr_totalViews incr_totalDownloads push_log
                     accessLogs totalViews totalDownloads];
    rewrite !count_action_app; unfold count_action at 2 4; simpl; lia.
Qed.

Lemma counters_agree_session ts pv tp r e :
  last (accessLogs r) = Some e ->
  counters_agree r ->
  counters_agree
    (with_accessLogs
       (<[(length (accessLogs r) - 1)%nat := attach_session ts pv tp e]> (accessLogs r)) r).
Proof.
  unfold counters_agree. intros He [Hv Hd].
  cbn [with_accessLogs accessLogs totalViews totalDownloads].
  rewrite <- lookup_last_index in He.
  by rewrite !(count_action_insert _ _ _ e).
Qed.

Lemma store_change_counters c d d' :
  store_change c d d' -> all_counters_agree d -> all_counters_agree d'.
Proof.
  unfold all_counters_agree.
  intros [|k r act req pg Hk|k r e ts pv tp Hk He Hv|part u1 u2 r _ Hl Hv Hd _|k] Hall.
  - done.
  - apply Forall_set; [done|]. apply counters_agree_logged.
    apply get_Some_elem in Hk. by apply (proj1 (Forall_forall _ _) Hall (k, r)).
  - apply Forall_set; [done|]. apply counters_agree_session; [done|].
    apply get_Some_elem in Hk. by apply (proj1 (Forall_forall _ _) Hall (k, r)).
  - apply Forall_set; [done|]. unfold counters_agree. cbn [snd].
    by rewrite Hl, Hv, Hd.
  - by apply Forall_del.
Qed.

Lemma reachable_counters st : reachable st -> all_counters_agree (records st).
Proof.
  induction 1 as [st [H|H]|st c req _ IH].
  - destruct st as [f u]. simpl in H. subst f. constructor.
  - destruct st as [f u]. simpl in H. subst f. constructor.
  - eapply store_change_counters; [apply handle_store_change | done].
Qed.

(** C10: in every state reachable from an empty store by requests, each
    record's [totalViews] is the number of view entries of its log and
    its [totalDownloads] the number of download entries. *)
Theorem C10_counters_match_log st id r :
  reachable st ->
  get (records st) id = Some r ->
  totalViews r = Z.of_nat (count_action view (accessLogs r)) /\
  totalDownloads r = Z.of_nat (count_action download (accessLogs r)).
Proof.
  intros Hreach Hr. apply reachable_counters in Hreach.
  apply get_Some_elem in Hr.
  by apply (proj1 (Forall_forall _ _) Hreach (id, r)).
Qed.

Lemma C10_counters_match_log_witness :
  exists r,
    get (records st_paged) id_a = Some r /\
    totalViews r = Z.of_nat (count_action view (accessLogs r)) /\
    totalDownloads r = Z.of_nat (count_action download (accessLogs r)).
Proof.
  eexists. split; [reflexivity|].
  apply (C10_counters_match_log st_paged id_a).
  - apply (reach_step _ (POST_track_page id_a (JNumber (of_int 1))) req0).
    apply (reach_step _ (GET_v "aaaaaaaa") req0).
    apply (reach_step _ (POST_upload (Some pdf_part)
                           "f0000000-0000-4000-8000-000000000000" id_a) req0).
    apply reach_init. left. reflexivity.
  - reflexivity.
Defined.

(** ** Unknown and deleted identifiers *)

Lemma lookup_unknown st id :
  get (records st) id = None ->
  get_stats id st = (mkResponse 404 (ErrorJson "PDF not found"), loaded st) /\
  get_pdf id st = (mkResponse 404 (Text "PDF not found"), loaded st) /\
  get_download id st = (mkResponse 404 (Text "PDF not found"), loaded st) /\
  delete_delete id st = (mkResponse 404 (ErrorJson "PDF not found"), loaded st).
Proof.
  intros H. unfold get_stats, get_pdf, get_download, delete_delete.
  by rewrite getTrackingData_eq, H.
Qed.

Lemma get_v_unknown st sid req :
  short_free sid (records st) ->
  get_v sid req st = (mkResponse 404 NotFoundPage, loaded st).
Proof.
  intros Hfree. unfold get_v. rewrite getTrackingData_eq.
  replace (entries_find _ _) with (@None (string * TrackingRecord)); [done|].
  symmetry. apply entries_find_None. intros k r Hin.
  apply String.eqb_neq. by eapply Hfree.
Qed.

(** *** Identifiers that resolve to an inherited member *)

Lemma resolves_inherited_own {V} (o : list (string * V)) k v :
  get o k = Some v -> resolves_inherited o k = false.
Proof. unfold resolves_inherited. by intros ->. Qed.

Lemma resolves_inherited_unknown {V} (o : list (string * V)) k :
  get o k = None -> resolves_inherited o k = inherited k.
Proof. unfold resolves_inherited. by intros ->. Qed.

Lemma resolves_inherited_true {V} (o : list (string * V)) k :
  resolves_inherited o k = true -> get o k = None /\ inherited k = true.
Proof. unfold resolves_inherited. by destruct (get o k). Qed.

(** Outside the inherited names, [serve] is the handler. *)
Lemma serve_handle c req st :
  (forall id, looked_up c = Some id -> resolves_inherited (records st) id = false) ->
  serve c req st = handle c req st.
Proof.
  intros H. unfold serve. destruct (looked_up c) as [id|]; [|done].
  by rewrite (H id).
Qed.

Lemma serve_inherited c req st id :
  looked_up c = Some id ->
  resolves_inherited (records st) id = true ->
  serve c req st = (inherited_response c, loaded st).
Proof. intros Hc Hid. unfold serve. by rewrite Hc, Hid. Qed.

(** A request whose identifier is not a key of the document writes
    nothing, whichever path it takes. *)
Lemma handle_unknown_state c req st id :
  looked_up c = Some id -> get (records st) id = None ->
  snd (handle c req st) = loaded st.
Proof.
  intros Hc Hid. destruct (lookup_unknown st id Hid) as (Hs & Hp & Hd & Hx).
  destruct c; try done; cbn in Hc; injection Hc as ->; cbn [handle].
  - by rewrite Hp.
  - by rewrite Hd.
  - unfold post_log_download. by rewrite logAccess_unknown.
  - unfold post_track_page. by rewrite logAccess_unknown.
  - rewrite post_track_session_eq. unfold session_state. by rewrite Hid.
  - by rewrite Hs.
  - by rewrite Hx.
Qed.

(** The inherited path never changes the state, so the states the server
    reaches are those [handle] reaches. *)
Lemma serve_state c req st : snd (serve c req st) = snd (handle c req st).
Proof.
  unfold serve. destruct (looked_up c) as [id|] eqn:Hc; [|done].
  destruct (resolves_inherited (records st) id) eqn:Hid; [|done].
  apply resolves_inherited_true in Hid as [Hid _].
  by rewrite (handle_unknown_state _ _ _ _ Hc Hid).
Qed.

(** What the code does with an identifier that is not stored but names
    an inherited property: stats answers 200, every other route that
    looks the identifier up answers 500, and nothing is written. *)
Lemma inherited_identifier_answers c req st id :
  looked_up c = Some id ->
  get (records st) id = None ->
  inherited id = true ->
  status (fst (serve c req st)) = (match c with GET_stats _ => 200 | _ => 500 end)%nat /\
  snd (serve c req st) = loaded st.
Proof.
  intros Hc Hid Hin.
  rewrite (serve_inherited _ _ _ id Hc)
    by by rewrite resolves_inherited_unknown.
  split; [|done]. destruct c; try done. cbn. by case_match.
Qed.

(** C7 (as amended): for an identifier that is not a key of the store and
    is not the name of a property every object inherits ([constructor],
    [__proto__], [toString], ...), the stats, get-pdf, download and
    delete requests answer 404 not-found, whereas the three
    body-identified beacons (log-download, track-page, track-session)
    answer [{ success: true }]; none of the seven changes a record.  A
    viewer request for a short identifier no record has answers with the
    404 page. *)
Theorem C7_unknown_identifier st id req pg ts pv tp :
  get (records st) id = None ->
  inherited id = false ->
  (is_not_found (fst (serve (GET_stats id) req st)) = true /\
   is_not_found (fst (serve (GET_get_pdf id) req st)) = true /\
   is_not_found (fst (serve (GET_download id) req st)) = true /\
   is_not_found (fst (serve (DELETE_delete id) req st)) = true) /\
  (fst (serve (POST_log_download id) req st) = mkResponse 200 Success /\
   fst (serve (POST_track_page id pg) req st) = mkResponse 200 Success /\
   fst (serve (POST_track_session id ts pv tp) req st) = mkResponse 200 Success) /\
  (forall c,
     c ∈ [GET_stats id; GET_get_pdf id; GET_download id; DELETE_delete id;
          POST_log_download id; POST_track_page id pg;
          POST_track_session id ts pv tp] ->
     snd (serve c req st) = loaded st) /\
  (forall sid, short_free sid (records st) ->
     is_not_found (fst (serve (GET_v sid) req st)) = true /\
     snd (serve (GET_v sid) req st) = loaded st).
Proof.
  intros Hid Hin. destruct (lookup_unknown st id Hid) as (Hs & Hp & Hd & Hx).
  assert (Hl : post_log_download id req st = (mkResponse 200 Success, loaded st)).
  { unfold post_log_download. by rewrite logAccess_unknown. }
  assert (Ht : post_track_page id pg req st = (mkResponse 200 Success, loaded st)).
  { unfold post_track_page. by rewrite logAccess_unknown. }
  assert (Hss : post_track_session id ts pv tp st = (mkResponse 200 Success, loaded st)).
  { rewrite post_track_session_eq. unfold session_state. by rewrite Hid. }
  assert (Hserve : forall c, looked_up c = Some id -> serve c req st = handle c req st).
  { intros c Hc. apply serve_handle. intros id' Hc'.
    assert (id' = id) as -> by congruence.
    by rewrite resolves_inherited_unknown. }
  split_and!.
  - rewrite Hserve by done. cbn [handle]. by rewrite Hs.
  - rewrite Hserve by done. cbn [handle]. by rewrite Hp.
  - rewrite Hserve by done. cbn [handle]. by rewrite Hd.
  - rewrite Hserve by done. cbn [handle]. by rewrite Hx.
  - rewrite Hserve by done. cbn [handle]. by rewrite Hl.
  - rewrite Hserve by done. cbn [handle]. by rewrite Ht.
  - rewrite Hserve by done. cbn [handle]. by rewrite Hss.
  - intros c Hc. rewrite serve_state.
    repeat (apply elem_of_cons in Hc as [->|Hc]); cbn [handle].
    + by rewrite Hs.
    + by rewrite Hp.
    + by rewrite Hd.
    + by rewrite Hx.
    + by rewrite Hl.
    + by rewrite Ht.
    + by rewrite Hss.
    + by apply elem_of_nil in Hc.
  - intros sid Hfree. unfold serve. cbn [looked_up handle].
    by rewrite get_v_unknown.
Qed.

Lemma C7_unknown_identifier_witness :
  is_not_found (fst (serve (GET_stats id_c) req0 st_uploaded)) = true /\
  fst (serve (POST_log_download id_c) req0 st_uploaded) = mkResponse 200 Success.
Proof.
  destruct (C7_unknown_identifier st_uploaded id_c req0 (JNumber (of_int 1))
              (JNumber (of_int 12)) (JNumber (of_int 1)) (JNumber (of_int 3)))
    as ((Hs & _) & (Hl & _) & _).
  - reflexivity.
  - reflexivity.
  - split; [exact Hs | exact Hl].
Defined.

(** C7 as the specification words it fails on the three beacons: for an
    identifier that is not in the store (here a uuid no upload drew),
    log-download, track-page and track-session answer 200
    [{ success: true }], not a not-found error.  It also fails for an
    identifier that is not in the store but names an inherited property:
    for [constructor], stats answers 200 and download 500. *)
Lemma C7_counterexample_beacons_succeed :
  get (records st_uploaded) id_c = None /\
  fst (serve (POST_log_download id_c) req0 st_uploaded) = mkResponse 200 Success /\
  is_not_found (fst (serve (POST_log_download id_c) req0 st_uploaded)) = false /\
  is_not_found (fst (serve (POST_track_page id_c (JNumber (of_int 1))) req0 st_uploaded))
    = false /\
  is_not_found (fst (serve (POST_track_session id_c (JNumber (of_int 12))
                              (JNumber (of_int 1)) (JNumber (of_int 3))) req0 st_uploaded))
    = false /\
  get (records st_uploaded) "constructor" = None /\
  status (fst (serve (GET_stats "constructor") req0 st_uploaded)) = 200%nat /\
  status (fst (serve (GET_download "constructor") req0 st_uploaded)) = 500%nat.
Proof. split_and!; reflexivity. Qed.

(** Track-session drops the summary without an error when the identifier
    names nothing at all, when the addressed record has an empty log, and
    when its last entry is not a view: the answer is [{ success: true }]
    and nothing is written. *)
Lemma track_session_dropped st id ts pv tp req :
  ((get (records st) id = None /\ inherited id = false) \/
   (exists r, get (records st) id = Some r /\ accessLogs r = []) \/
   (exists r e, get (records st) id = Some r /\
                last (accessLogs r) = Some e /\ action e <> view)) ->
  serve (POST_track_session id ts pv tp) req st = (mkResponse 200 Success, loaded st).
Proof.
  intros H. rewrite serve_handle.
  - cbn [handle]. rewrite post_track_session_eq. f_equal. unfold session_state.
    destruct H as [[-> _] | [(r & -> & Hl) | (r & e & -> & He & Hv)]].
    + done.
    + by rewrite Hl.
    + rewrite He. by rewrite Action_eqb_view_false.
  - intros id' [= <-].
    destruct H as [[Hn Hi] | [(r & Hr & _) | (r & e & Hr & _)]].
    + by rewrite resolves_inherited_unknown.
    + by eapply resolves_inherited_own.
    + by eapply resolves_inherited_own.
Qed.

(** C9 (where the code departs from it): for a [trackingId] that is not
    in the store but names a property every object inherits (such as
    [constructor] or [__proto__]), the guard
    [trackingData[trackingId] && ...] passes, reading [.accessLogs.length]
    of the inherited member throws, and track-session answers 500
    instead of [{ success: true }]; the store is left unchanged. *)
Theorem C9_track_session_inherited_name st id ts pv tp req :
  get (records st) id = None ->
  inherited id = true ->
  status (fst (serve (POST_track_session id ts pv tp) req st)) = 500%nat /\
  fst (serve (POST_track_session id ts pv tp) req st) <> mkResponse 200 Success /\
  records (snd (serve (POST_track_session id ts pv tp) req st)) = records st /\
  uploads (snd (serve (POST_track_session id ts pv tp) req st)) = uploads st.
Proof.
  intros Hid Hin.
  rewrite (serve_inherited _ _ _ id) by (by rewrite ?resolves_inherited_unknown).
  cbn [fst snd inherited_response status]. rewrite records_loaded, uploads_loaded.
  by split_and!.
Qed.

Lemma C9_track_session_inherited_name_witness :
  get (records st_uploaded) "constructor" = None /\
  status (fst (serve (POST_track_session "constructor" (JNumber (of_int 12))
                        (JNumber (of_int 1)) (JNumber (of_int 3))) req0 st_uploaded))
    = 500%nat.
Proof.
  split; [reflexivity|].
  destruct (C9_track_session_inherited_name st_uploaded "constructor"
              (JNumber (of_int 12)) (JNumber (of_int 1)) (JNumber (of_int 3)) req0)
    as [H _]; [reflexivity | reflexivity | exact H].
Defined.

Lemma shortId_logged act req pg r : shortId (logged act req pg r) = shortId r.
Proof. by destruct act. Qed.

(** A key that is absent stays absent, unless an upload draws it. *)
Lemma absent_step c req st id :
  assigns id c = false ->
  get (records st) id = None ->
  get (records (snd (handle c req st))) id = None.
Proof.
  intros Hc Hid.
  destruct (handle_store_change c req st)
    as [|k r act rq pg Hk|k r e ts pv tp Hk He Hv|part u1 u2 r -> _ _ _ _|k].
  - done.
  - rewrite get_set_ne; [done | congruence].
  - rewrite get_set_ne; [done | congruence].
  - cbn [assigns] in Hc. apply String.eqb_neq in Hc. by rewrite get_set_ne.
  - destruct (decide (k = id)) as [->|Hne];
      [apply get_del_eq | by rewrite get_del_ne].
Qed.

Lemma absent_run cs st id :
  Forall (fun cr => assigns id (fst cr) = false) cs ->
  get (records st) id = None ->
  get (records (run cs st)) id = None.
Proof.
  revert st. induction cs as [|[c req] cs IH]; intros st Hcs Hid; [done|].
  apply Forall_cons in Hcs as [Hc Hcs]. cbn [run].
  apply IH; [done|]. by apply absent_step.
Qed.

(** A short identifier nobody has stays free, unless an upload gets it. *)
Lemma short_free_step c req st sid :
  assigns_short sid c = false ->
  short_free sid (records st) ->
  short_free sid (records (snd (handle c req st))).
Proof.
  intros Hc Hfree.
  destruct (handle_store_change c req st)
    as [|k r act rq pg Hk|k r e ts pv tp Hk He Hv|part u1 u2 r -> _ _ _ Hs|k].
  - done.
  - intros k' r' [[= -> ->]|Hin]%elem_set; [|by eapply Hfree].
    rewrite shortId_logged. eapply Hfree. by apply get_Some_elem.
  - intros k' r' [[= -> ->]|Hin]%elem_set; [|by eapply Hfree].
    cbn [shortId with_accessLogs]. eapply Hfree. by apply get_Some_elem.
  - cbn [assigns_short] in Hc. apply String.eqb_neq in Hc.
    intros k' r' [[= -> ->]|Hin]%elem_set; [congruence | by eapply Hfree].
  - intros k' r' [Hin _]%elem_del. by eapply Hfree.
Qed.

Lemma short_free_run cs st sid :
  Forall (fun cr => assigns_short sid (fst cr) = false) cs ->
  short_free sid (records st) ->
  short_free sid (records (run cs st)).
Proof.
  revert st. induction cs as [|[c req] cs IH]; intros st Hcs Hfree; [done|].
  apply Forall_cons in Hcs as [Hc Hcs]. cbn [run].
  apply IH; [done|]. by apply short_free_step.
Qed.

Lemma delete_delete_found st id r :
  get (records st) id = Some r ->
  delete_delete id st =
    (mkResponse 200 Deleted,
     saveTrackingData (del (records st) id)
       (if existsSync (fileName r) st then unlinkSync (fileName r) (loaded st)
        else loaded st)).
Proof.
  intros Hr. unfold delete_delete.
  by rewrite getTrackingData_eq, Hr, existsSync_loaded.
Qed.

(** C6 (as amended): deleting a record of the store answers success,
    removes the record and its backing file, and from then on, through
    any later requests that do not upload a document under the same
    tracking identifier, the stats, download and get-pdf requests for it
    answer 404.  The viewer request for its short identifier answers 404
    as well provided no other record of the store shares that short
    identifier (and no later upload gets it). *)
Theorem C6_delete_then_not_found st id r :
  get (records st) id = Some r ->
  let st' := snd (delete_delete id st) in
  fst (delete_delete id st) = mkResponse 200 Deleted /\
  get (records st') id = None /\
  (fileName r ∉ uploads st') /\
  (forall cs,
     Forall (fun cr => assigns id (fst cr) = false) cs ->
     is_not_found (fst (get_stats id (run cs st'))) = true /\
     is_not_found (fst (get_download id (run cs st'))) = true /\
     is_not_found (fst (get_pdf id (run cs st'))) = true) /\
  ((forall k r', (k, r') ∈ records st -> k <> id -> shortId r' <> shortId r) ->
   forall cs req,
     Forall (fun cr => assigns_short (shortId r) (fst cr) = false) cs ->
     is_not_found (fst (get_v (shortId r) req (run cs st'))) = true).
Proof.
  intros Hr st'. subst st'. rewrite (delete_delete_found _ _ _ Hr). cbn [fst snd].
  set (st' := saveTrackingData _ _).
  assert (Hrec : records st' = del (records st) id) by done.
  assert (Hgone : get (records st') id = None) by (rewrite Hrec; apply get_del_eq).
  split_and!.
  - done.
  - done.
  - subst st'. rewrite uploads_save. unfold existsSync.
    destruct (bool_decide_reflect (fileName r ∈ uploads st)) as [Hin|Hnin].
    + cbn [unlinkSync uploads]. rewrite elem_of_difference, elem_of_singleton.
      by intros [_ ?].
    + by rewrite uploads_loaded.
  - intros cs Hcs.
    destruct (lookup_unknown _ _ (absent_run cs st' id Hcs Hgone)) as (-> & -> & -> & _).
    done.
  - intros Hothers cs req Hcs. rewrite get_v_unknown; [done|].
    apply short_free_run; [done|]. rewrite Hrec.
    intros k r' [Hin Hne]%elem_del. by eapply Hothers.
Qed.

Lemma C6_delete_then_not_found_witness :
  let st' := snd (delete_delete id_a st_viewed) in
  fst (delete_delete id_a st_viewed) = mkResponse 200 Deleted /\
  get (records st') id_a = None /\
  is_not_found (fst (get_stats id_a (run [(GET_stats_all, req0)] st'))) = true.
Proof.
  pose (r := logged view req0 JUndefined
               (mkRecord id_a "aaaaaaaa" "report.pdf"
                  "f0000000-0000-4000-8000-000000000000-report.pdf"
                  "2025-01-01T00:00:00.000Z" [] 0 0 true
                  "http://localhost:3000/v/aaaaaaaa")).
  assert (Hr : get (records st_viewed) id_a = Some r) by reflexivity.
  destruct (C6_delete_then_not_found st_viewed id_a r Hr)
    as (Hresp & Hgone & _ & Hlater & _).
  destruct (Hlater [(GET_stats_all, req0)]) as (Hstats & _).
  - repeat constructor.
  - split; [exact Hresp | split; [exact Hgone | exact Hstats]].
Defined.

(** C6 as the specification words it fails when two records share a
    short identifier (two uuids with the same first group): after the
    first is deleted, the viewer request for that short identifier still
    resolves, to the other record. *)
Lemma C6_counterexample_shared_short_id :
  let st' := snd (delete_delete id_a st_collision) in
  (exists r, get (records st_collision) id_a = Some r /\ shortId r = "aaaaaaaa") /\
  fst (delete_delete id_a st_collision) = mkResponse 200 Deleted /\
  fst (get_v "aaaaaaaa" req0 st') = mkResponse 200 (ViewerPage id_b) /\
  is_not_found (fst (get_v "aaaaaaaa" req0 st')) = false.
Proof.
  split_and!; [eexists; split; reflexivity | reflexivity..].
Qed.

(** ** Well-formedness of reachable documents *)

Lemma store_change_distinct_keys c d d' :
  store_change c d d' -> distinct_keys d -> distinct_keys d'.
Proof.
  intros [| | | |]; auto using @distinct_keys_set, @distinct_keys_del.
Qed.

(** The document a running server holds has each key once. *)
Lemma reachable_distinct_keys st : reachable st -> distinct_keys (records st).
Proof.
  induction 1 as [st [H|H]|st c req _ IH].
  - destruct st as [f u]. simpl in H. subst f. apply NoDup_nil_2.
  - destruct st as [f u]. simpl in H. subst f. apply NoDup_nil_2.
  - eapply store_change_distinct_keys; [apply handle_store_change | done].
Qed.

Lemma reachable_run cs st : reachable st -> reachable (run cs st).
Proof.
  revert st. induction cs as [|[c req] cs IH]; intros st Hst; [done|].
  cbn [run]. apply IH. by apply reach_step.
Qed.

(** * Further properties of the handlers *)

(** ** One request, route by route *)

Lemma handle_store_step c req st :
  store_step c req (records st) (records (snd (handle c req st))).
Proof.
  destruct c as [part u1 u2|sid|id|id|id|id pg|id ts pv tp|id| |id]; cbn [handle].
  - unfold post_upload, upload_single.
    destruct part as [file|]; [destruct (fileFilter file)|]; cbn [snd];
      try apply step_same.
    destruct (host req) as [h|] eqn:Hh;
      [|cbn [snd]; rewrite records_writeFile; apply step_same].
    rewrite getTrackingData_eq. cbn [snd]. rewrite records_save, records_writeFile.
    by eapply step_upload.
  - unfold get_v. rewrite getTrackingData_eq.
    destruct (entries_find _ _) as [[id r0]|];
      [|cbn [snd]; rewrite records_loaded; apply step_same].
    destruct (get (records st) id) as [r|] eqn:Hr.
    + rewrite (logAccess_found _ _ _ _ _ r) by by rewrite records_loaded.
      cbn [snd]. rewrite records_save, records_loaded. by eapply step_view.
    + rewrite logAccess_unknown by by rewrite records_loaded.
      cbn [snd]. rewrite !records_loaded. apply step_same.
  - unfold get_pdf. rewrite getTrackingData_eq.
    destruct (get (records st) id) as [r|]; [destruct (existsSync _ _)|];
      cbn [snd]; rewrite records_loaded; apply step_same.
  - unfold get_download. rewrite getTrackingData_eq.
    destruct (get (records st) id) as [r|];
      [destruct (existsSync _ _); [destruct (header_value_ok _)|]|];
      cbn [snd]; rewrite records_loaded; apply step_same.
  - unfold post_log_download. destruct (get (records st) id) as [r|] eqn:Hr.
    + rewrite (logAccess_found _ _ _ _ _ r Hr). cbn [snd]. rewrite records_save.
      by eapply step_download.
    + rewrite logAccess_unknown by done. cbn [snd]. rewrite records_loaded.
      apply step_same.
  - unfold post_track_page. destruct (get (records st) id) as [r|] eqn:Hr.
    + rewrite (logAccess_found _ _ _ _ _ r Hr). cbn [snd]. rewrite records_save.
      by eapply step_page.
    + rewrite logAccess_unknown by done. cbn [snd]. rewrite records_loaded.
      apply step_same.
  - rewrite post_track_session_eq. cbn [snd]. unfold session_state.
    destruct (get (records st) id) as [r|] eqn:Hr;
      [|rewrite records_loaded; apply step_same].
    destruct (last (accessLogs r)) as [e|] eqn:He;
      [|rewrite records_loaded; apply step_same].
    destruct (Action_eqb (action e) view) eqn:Hv;
      [|rewrite records_loaded; apply step_same].
    rewrite records_save. eapply step_session; [done..|by apply Action_eqb_eq].
  - unfold get_stats. rewrite getTrackingData_eq.
    destruct (get (records st) id) as [r|];
      cbn [snd]; rewrite records_loaded; apply step_same.
  - unfold get_stats_all. rewrite getTrackingData_eq. cbn [snd].
    rewrite records_loaded. apply step_same.
  - unfold delete_delete. rewrite getTrackingData_eq.
    destruct (get (records st) id) as [r|] eqn:Hr.
    + cbn [snd]. rewrite records_save. by eapply step_delete.
    + cbn [snd]. rewrite records_loaded. apply step_same.
Qed.

(** ** Downloads *)

(** X1: a log-download request for a stored record answers
    [{ success: true }], appends exactly one download entry to its log,
    adds one to [totalDownloads], and leaves [totalViews], the other
    records and the stored files alone. *)
Theorem X1_log_download_counted_once st id req r :
  get (records st) id = Some r ->
  let st' := snd (post_log_download id req st) in
  fst (post_log_download id req st) = mkResponse 200 Success /\
  uploads st' = uploads st /\
  (forall k, k <> id -> get (records st') k = get (records st) k) /\
  exists r' e,
    get (records st') id = Some r' /\
    action e = download /\ timestamp e = now req /\
    accessLogs r' = (accessLogs r ++ [e])%list /\
    totalDownloads r' = totalDownloads r + 1 /\
    totalViews r' = totalViews r.
Proof.
  intros Hr st'. subst st'. unfold post_log_download.
  rewrite (logAccess_found _ _ _ _ _ r Hr). cbn [fst snd].
  rewrite records_save, uploads_save, uploads_loaded.
  split_and!; [done | done | by intros k Hk; apply get_set_ne |].
  eexists _, (mkEntry (now req) download (req_ip req) (user_agent req)
                JUndefined JUndefined JUndefined JUndefined JUndefined).
  split; [apply get_set_eq|]. split_and!; reflexivity.
Qed.

Lemma X1_log_download_counted_once_witness :
  exists r r',
    get (records st_viewed) id_a = Some r /\
    get (records (snd (post_log_download id_a req0 st_viewed))) id_a = Some r' /\
    totalDownloads r' = totalDownloads r + 1.
Proof.
  pose (r := logged view req0 JUndefined
               (mkRecord id_a "aaaaaaaa" "report.pdf"
                  "f0000000-0000-4000-8000-000000000000-report.pdf"
                  "2025-01-01T00:00:00.000Z" [] 0 0 true
                  "http://localhost:3000/v/aaaaaaaa")).
  assert (Hr : get (records st_viewed) id_a = Some r) by reflexivity.
  destruct (X1_log_download_counted_once st_viewed id_a req0 r Hr)
    as (_ & _ & _ & r' & e & Hr' & _ & _ & _ & Hd & _).
  exists r, r'. split; [exact Hr | split; [exact Hr' | exact Hd]].
Defined.

Lemma read_only_loaded c req st : is_read c = true -> snd (handle c req st) = loaded st.
Proof.
  destruct c as [part u1 u2|sid|id|id|id|id pg|id ts pv tp|id| |id]; try done;
    intros _; cbn [handle];
    unfold get_pdf, get_download, get_stats, get_stats_all;
    rewrite getTrackingData_eq;
    try (destruct (get (records st) id) as [r|];
         [try (destruct (existsSync _ _); [try destruct (header_value_ok _)|])|]);
    done.
Qed.

(** X2: the four GET routes get-pdf, download, stats and stats (all)
    only read: whatever they answer, the records and the stored files are
    those of before.  In particular serving [/download/:trackingId] does
    not count a download; only log-download does. *)
Theorem X2_get_routes_read_only c req st :
  is_read c = true ->
  records (snd (handle c req st)) = records st /\
  uploads (snd (handle c req st)) = uploads st.
Proof.
  intros Hc. rewrite (read_only_loaded _ _ _ Hc).
  by rewrite records_loaded, uploads_loaded.
Qed.

Lemma X2_get_routes_read_only_witness :
  records (snd (handle (GET_download id_a) req0 st_viewed)) = records st_viewed /\
  uploads (snd (handle (GET_download id_a) req0 st_viewed)) = uploads st_viewed.
Proof. apply (X2_get_routes_read_only (GET_download id_a) req0 st_viewed). reflexivity. Defined.

(** X3: for a record of the store, what get-pdf and download answer
    depends on the backing file and, for download, on the original name.
    When the file is missing from [uploads/], both answer 404 with the
    text [PDF file not found].  When it is there, get-pdf serves it
    inline; download serves it as an attachment named after the original
    file if that name is a legal header value, and answers 500
    [Error downloading PDF] if it is not (a control character, or a
    character above U+00FF, makes [setHeader] throw). *)
Theorem X3_serving_depends_on_file st id r :
  get (records st) id = Some r ->
  (fileName r ∉ uploads st ->
     fst (get_pdf id st) = mkResponse 404 (Text "PDF file not found") /\
     fst (get_download id st) = mkResponse 404 (Text "PDF file not found")) /\
  (fileName r ∈ uploads st ->
     fst (get_pdf id st) = mkResponse 200 (PdfFile (fileName r) None) /\
     (header_value_ok (originalName r) = true ->
        fst (get_download id st) =
          mkResponse 200 (PdfFile (fileName r) (Some (originalName r)))) /\
     (header_value_ok (originalName r) = false ->
        fst (get_download id st) = mkResponse 500 (Text "Error downloading PDF"))).
Proof.
  intros Hr. unfold get_pdf, get_download.
  rewrite getTrackingData_eq, Hr, existsSync_loaded. unfold existsSync.
  split; intros Hf.
  - by rewrite bool_decide_eq_false_2.
  - rewrite bool_decide_eq_true_2 by done. split_and!; [done | |]; by intros ->.
Qed.

Lemma X3_serving_depends_on_file_witness :
  fst (get_download id_a st_viewed) =
    mkResponse 200
      (PdfFile "f0000000-0000-4000-8000-000000000000-report.pdf" (Some "report.pdf")).
Proof.
  pose (r := logged view req0 JUndefined
               (mkRecord id_a "aaaaaaaa" "report.pdf"
                  "f0000000-0000-4000-8000-000000000000-report.pdf"
                  "2025-01-01T00:00:00.000Z" [] 0 0 true
                  "http://localhost:3000/v/aaaaaaaa")).
  assert (Hr : get (records st_viewed) id_a = Some r) by reflexivity.
  destruct (X3_serving_depends_on_file st_viewed id_a r Hr) as [_ Hin].
  destruct Hin as (_ & Hd & _); [by vm_compute|].
  apply Hd. reflexivity.
Defined.

(** ** Upload *)

(** X4: an upload that is not answered 200 creates and changes no
    record.  The answer is 400 [No file uploaded] exactly when the request
    has no file part, and then nothing at all changes, not even the
    tracking document being created. *)
Theorem X4_failed_upload_creates_no_record part u1 u2 req st :
  (status (fst (post_upload part u1 u2 req st)) = 200%nat \/
   records (snd (post_upload part u1 u2 req st)) = records st) /\
  (status (fst (post_upload part u1 u2 req st)) = 400%nat <-> part = None) /\
  (part = None ->
     post_upload part u1 u2 req st = (mkResponse 400 (ErrorJson "No file uploaded"), st)).
Proof.
  unfold post_upload, upload_single.
  destruct part as [file|]; [|by split_and!; [right | | ]].
  destruct (fileFilter file); [|by split_and!; [right | | ]].
  destruct (host req) as [h|].
  - rewrite getTrackingData_eq. by split_and!; [left | | ].
  - cbn [fst snd status]. rewrite records_writeFile. by split_and!; [right | | ].
Qed.

Lemma post_upload_pdf file u1 u2 req st h :
  mimetype file = "application/pdf" ->
  host req = Some h ->
  post_upload (Some file) u1 u2 req st =
    (mkResponse 200
       (UploadOk u2 (split_dash_0 u2) (viewerUrl (new_record file u1 u2 h req))
          (((if includes h "localhost" then "http" else "https") +:+ "://" +:+ h)
             +:+ "/api/stats/" +:+ u2)),
     saveTrackingData (set (records st) u2 (new_record file u1 u2 h req))
       (writeFile (u1 +:+ "-" +:+ originalname file) (loaded st))).
Proof.
  intros Hm Hh. unfold post_upload, upload_single, fileFilter.
  rewrite Hm, Hh. cbn [String.eqb]. rewrite !Ascii.eqb_refl.
  rewrite getTrackingData_eq, records_writeFile.
  by destruct st as [[d|] u].
Qed.

(** X5: an upload whose file part is declared [application/pdf] (and
    whose request has a Host header) succeeds.  It answers with the
    drawn uuid, its first group as short identifier and the viewer link
    that is also kept in the record; it stores the file under
    [<uuid>-<original name>], adds nothing else to [uploads/], stores a
    record with empty log and zero counters under the uuid, and leaves
    every record under another key as it was. *)
Theorem X5_upload_pdf_stores_record file u1 u2 req st h :
  mimetype file = "application/pdf" ->
  host req = Some h ->
  let st' := snd (post_upload (Some file) u1 u2 req st) in
  exists r link stats,
    fst (post_upload (Some file) u1 u2 req st) =
      mkResponse 200 (UploadOk u2 (split_dash_0 u2) link stats) /\
    get (records st') u2 = Some r /\
    viewerUrl r = link /\
    trackingId r = u2 /\ shortId r = split_dash_0 u2 /\
    originalName r = originalname file /\
    fileName r = u1 +:+ "-" +:+ originalname file /\
    uploadedAt r = now req /\
    accessLogs r = [] /\ totalViews r = 0 /\ totalDownloads r = 0 /\
    uploads st' = {[ fileName r ]} ∪ uploads st /\
    (forall k, k <> u2 -> get (records st') k = get (records st) k).
Proof.
  intros Hm Hh st'. subst st'. rewrite (post_upload_pdf _ _ _ _ _ h Hm Hh).
  cbn [fst snd]. eexists _, _, _. split; [reflexivity|].
  rewrite records_save, uploads_save. split; [apply get_set_eq|].
  cbn [writeFile uploads]. rewrite uploads_loaded.
  split_and!; try reflexivity.
  intros k Hk. by apply get_set_ne.
Qed.

Lemma X5_upload_pdf_stores_record_witness :
  exists r, get (records st_uploaded) id_a = Some r /\ shortId r = "aaaaaaaa".
Proof.
  destruct (X5_upload_pdf_stores_record pdf_part
              "f0000000-0000-4000-8000-000000000000" id_a req0 st_init
              "localhost:3000")
    as (r & link & stats & _ & Hr & _ & _ & Hs & _); [reflexivity | reflexivity |].
  exists r. split; [exact Hr | exact Hs].
Defined.

(** X6: when the request has no Host header the handler throws after
    multer has stored the file: the answer is 500, no record is created,
    and the file stays in [uploads/] without a record pointing to it. *)
Theorem X6_upload_without_host_leaves_file file u1 u2 req st :
  mimetype file = "application/pdf" ->
  host req = None ->
  let st' := snd (post_upload (Some file) u1 u2 req st) in
  status (fst (post_upload (Some file) u1 u2 req st)) = 500%nat /\
  records st' = records st /\
  uploads st' = {[ u1 +:+ "-" +:+ originalname file ]} ∪ uploads st.
Proof.
  intros Hm Hh st'. subst st'. unfold post_upload, upload_single, fileFilter.
  rewrite Hm, Hh. cbn [String.eqb]. rewrite !Ascii.eqb_refl. cbn [fst snd status].
  by rewrite records_writeFile.
Qed.

Lemma X6_upload_without_host_leaves_file_witness :
  records (snd (post_upload (Some pdf_part) "f2" id_c
                  (mkReq "2025-01-02T00:00:00.000Z" None None None) st_uploaded))
  = records st_uploaded.
Proof.
  apply (X6_upload_without_host_leaves_file pdf_part "f2" id_c
           (mkReq "2025-01-02T00:00:00.000Z" None None None) st_uploaded);
    reflexivity.
Defined.

(** X7: upload then download is a round trip on the file name, for
    names that can go into a header.  Right after a successful upload,
    get-pdf for the returned identifier serves the stored file; download
    serves it as an attachment named exactly as the uploaded file was
    when that name is a legal header value, and answers 500
    [Error downloading PDF] when it is not, although the file and its
    record are stored. *)
Theorem X7_upload_then_download file u1 u2 req st h :
  mimetype file = "application/pdf" ->
  host req = Some h ->
  let st' := snd (post_upload (Some file) u1 u2 req st) in
  fst (get_pdf u2 st') =
    mkResponse 200 (PdfFile (u1 +:+ "-" +:+ originalname file) None) /\
  (header_value_ok (originalname file) = true ->
     fst (get_download u2 st') =
       mkResponse 200
         (PdfFile (u1 +:+ "-" +:+ originalname file) (Some (originalname file)))) /\
  (header_value_ok (originalname file) = false ->
     fst (get_download u2 st') = mkResponse 500 (Text "Error downloading PDF")).
Proof.
  intros Hm Hh st'. subst st'. rewrite (post_upload_pdf _ _ _ _ _ h Hm Hh).
  cbn [snd]. unfold get_download, get_pdf. rewrite getTrackingData_eq, records_save.
  rewrite get_set_eq. cbn [fileName originalName new_record].
  rewrite existsSync_loaded. unfold existsSync.
  rewrite bool_decide_eq_true_2.
  - split_and!; [done | |]; by intros ->.
  - rewrite uploads_save. cbn [writeFile uploads]. apply elem_of_union_l.
    by apply elem_of_singleton.
Qed.

Lemma X7_upload_then_download_witness :
  fst (get_download id_a st_uploaded) =
    mkResponse 200
      (PdfFile "f0000000-0000-4000-8000-000000000000-report.pdf" (Some "report.pdf")).
Proof.
  destruct (X7_upload_then_download pdf_part "f0000000-0000-4000-8000-000000000000"
              id_a req0 st_init "localhost:3000") as (_ & Hd & _);
    [reflexivity | reflexivity |].
  apply Hd. reflexivity.
Defined.

(** ** Short identifiers and the viewer link *)

Lemma entries_find_set_free {V} (p : V -> bool) (o : list (string * V)) k v :
  (forall k0 v0, (k0, v0) ∈ o -> p v0 = false) ->
  p v = true ->
  entries_find p (set o k v) = Some (k, v).
Proof.
  intros Hfree Hv. induction o as [|[k0 v0] o IH]; simpl.
  - by rewrite Hv.
  - assert (Hrest : forall k1 v1, (k1, v1) ∈ o -> p v1 = false)
      by (intros k1 v1 Hin; eapply Hfree; by right).
    destruct (String.eqb k0 k) eqn:E; simpl.
    + apply String.eqb_eq in E as ->. by rewrite Hv.
    + rewrite (Hfree k0 v0) by left. by apply IH.
Qed.

Lemma entries_find_set_fresh {V} (p : V -> bool) (o : list (string * V)) k v x :
  get o k = None ->
  entries_find p o = Some x ->
  entries_find p (set o k v) = Some x.
Proof.
  induction o as [|[k0 v0] o IH]; simpl; [done|].
  destruct (String.eqb k0 k) eqn:E; [done|]. simpl.
  destruct (p v0); [done|]. apply IH.
Qed.

(** X8: when no record of the store has the short identifier of a new
    upload, the viewer link returned by the upload opens that upload: the
    next viewer request for the short identifier answers with the page of
    the new tracking identifier and its record then counts one view, with
    one log entry. *)
Theorem X8_fresh_short_id_link_opens_upload file u1 u2 req req' st h :
  mimetype file = "application/pdf" ->
  host req = Some h ->
  short_free (split_dash_0 u2) (records st) ->
  let st' := snd (post_upload (Some file) u1 u2 req st) in
  fst (get_v (split_dash_0 u2) req' st') = mkResponse 200 (ViewerPage u2) /\
  exists r,
    get (records (snd (get_v (split_dash_0 u2) req' st'))) u2 = Some r /\
    totalViews r = 1 /\ length (accessLogs r) = 1%nat.
Proof.
  intros Hm Hh Hfree st'. subst st'. rewrite (post_upload_pdf _ _ _ _ _ h Hm Hh).
  cbn [snd]. set (r0 := new_record file u1 u2 h req).
  set (st1 := saveTrackingData _ _).
  assert (Hrec : records st1 = set (records st) u2 r0) by done.
  unfold get_v. rewrite getTrackingData_eq, Hrec.
  rewrite entries_find_set_free.
  - rewrite (logAccess_found _ _ _ _ _ r0)
      by (rewrite records_loaded, Hrec; apply get_set_eq).
    cbn [fst snd]. split; [done|]. rewrite records_save.
    eexists. split; [apply get_set_eq|]. done.
  - intros k0 v0 Hin. apply String.eqb_neq. by eapply Hfree.
  - apply String.eqb_refl.
Qed.

Lemma X8_fresh_short_id_link_opens_upload_witness :
  fst (get_v "aaaaaaaa" req0 st_uploaded) = mkResponse 200 (ViewerPage id_a).
Proof.
  destruct (X8_fresh_short_id_link_opens_upload pdf_part
              "f0000000-0000-4000-8000-000000000000" id_a req0 req0 st_init
              "localhost:3000") as [H _];
    [reflexivity | reflexivity | | exact H].
  intros k r Hin. by apply elem_of_nil in Hin.
Defined.

(** X9: short identifiers are not checked for collisions.  When a record
    of the store already has the short identifier of a new upload (stored
    under a fresh tracking identifier), the viewer link returned by the
    upload keeps opening the older record: the viewer request answers
    with the older tracking identifier and the view is counted there,
    while the new record still has no view and an empty log. *)
Theorem X9_taken_short_id_link_opens_older file u1 u2 req req' st h k r0 :
  mimetype file = "application/pdf" ->
  host req = Some h ->
  distinct_keys (records st) ->
  get (records st) u2 = None ->
  entries_find (fun d => String.eqb (shortId d) (split_dash_0 u2)) (records st)
    = Some (k, r0) ->
  let st' := snd (post_upload (Some file) u1 u2 req st) in
  let st'' := snd (get_v (split_dash_0 u2) req' st') in
  k <> u2 /\
  fst (get_v (split_dash_0 u2) req' st') = mkResponse 200 (ViewerPage k) /\
  (exists r, get (records st'') k = Some r /\ totalViews r = totalViews r0 + 1) /\
  (exists r, get (records st'') u2 = Some r /\ totalViews r = 0 /\ accessLogs r = []).
Proof.
  intros Hm Hh Hnd Hfresh Hfind st' st''. subst st' st''.
  rewrite (post_upload_pdf _ _ _ _ _ h Hm Hh). cbn [snd].
  set (rn := new_record file u1 u2 h req). set (st1 := saveTrackingData _ _).
  assert (Hrec : records st1 = set (records st) u2 rn) by done.
  assert (Hk : get (records st) k = Some r0)
    by (by apply (entries_find_get _ _ _ _ Hnd) in Hfind as [? _]).
  assert (Hne : k <> u2) by congruence.
  assert (Hnd1 : distinct_keys (records st1))
    by (rewrite Hrec; by apply distinct_keys_set).
  assert (Hfind1 : entries_find (fun d => String.eqb (shortId d) (split_dash_0 u2))
                     (records st1) = Some (k, r0))
    by (rewrite Hrec; by apply entries_find_set_fresh).
  rewrite (get_v_found _ _ _ _ _ Hnd1 Hfind1). cbn [fst snd].
  rewrite records_save, Hrec. split_and!.
  - done.
  - done.
  - eexists. split; [apply get_set_eq|]. done.
  - exists rn. rewrite get_set_ne by done. by rewrite get_set_eq.
Qed.

Lemma X9_taken_short_id_link_opens_older_witness :
  fst (get_v "aaaaaaaa" req0 st_collision) = mkResponse 200 (ViewerPage id_a).
Proof.
  destruct (X9_taken_short_id_link_opens_older pdf_part
              "f1111111-0000-4000-8000-000000000000" id_b req0 req0 st_uploaded
              "localhost:3000" id_a
              (mkRecord id_a "aaaaaaaa" "report.pdf"
                 "f0000000-0000-4000-8000-000000000000-report.pdf"
                 "2025-01-01T00:00:00.000Z" [] 0 0 true
                 "http://localhost:3000/v/aaaaaaaa"))
    as (_ & H & _);
    [reflexivity | reflexivity | | reflexivity | reflexivity | exact H].
  vm_compute. apply NoDup_singleton.
Defined.

(** ** Delete *)

(** X10: deleting a record touches nothing else: every record under
    another key is as before, and every file of [uploads/] other than the
    record's backing file is there exactly when it was there before. *)
Theorem X10_delete_leaves_the_rest st id r :
  get (records st) id = Some r ->
  let st' := snd (delete_delete id st) in
  (forall k, k <> id -> get (records st') k = get (records st) k) /\
  (forall f, f <> fileName r -> f ∈ uploads st' <-> f ∈ uploads st).
Proof.
  intros Hr st'. subst st'. rewrite (delete_delete_found _ _ _ Hr). cbn [snd].
  rewrite records_save, uploads_save. split.
  - intros k Hk. by apply get_del_ne.
  - intros f Hf. destruct (existsSync (fileName r) st).
    + cbn [unlinkSync uploads]. rewrite uploads_loaded.
      rewrite elem_of_difference, elem_of_singleton. by split; [intros [? _] | ].
    + by rewrite uploads_loaded.
Qed.

Lemma X10_delete_leaves_the_rest_witness :
  get (records (snd (delete_delete id_a st_collision))) id_b
  = get (records st_collision) id_b.
Proof.
  pose (r := mkRecord id_a "aaaaaaaa" "report.pdf"
               "f0000000-0000-4000-8000-000000000000-report.pdf"
               "2025-01-01T00:00:00.000Z" [] 0 0 true
               "http://localhost:3000/v/aaaaaaaa").
  assert (Hr : get (records st_collision) id_a = Some r) by reflexivity.
  destruct (X10_delete_leaves_the_rest st_collision id_a r Hr) as [H _].
  apply H. discriminate.
Defined.

(** ** Invariants of the documents a running server holds *)

(** Induction over the requests that led to a state: a property of
    records that every write keeps, and that a fresh record has, holds of
    every record of a reachable state. *)
Lemma reachable_records_ind (P : string -> TrackingRecord -> Prop) :
  (forall k r act req pg,
     (act = page_view \/ pg = JUndefined) -> P k r -> P k (logged act req pg r)) ->
  (forall k r e ts pv tp,
     last (accessLogs r) = Some e -> action e = view -> P k r ->
     P k (with_accessLogs
            (<[(length (accessLogs r) - 1)%nat := attach_session ts pv tp e]>
               (accessLogs r)) r)) ->
  (forall file u1 u2 h req, P u2 (new_record file u1 u2 h req)) ->
  forall st, reachable st -> forall k r, (k, r) ∈ records st -> P k r.
Proof.
  intros Hlog Hsess Hnew st Hreach.
  induction Hreach as [st [H|H]|st c req _ IH]; intros k r Hin.
  - destruct st as [f u]. simpl in H. subst f. by apply elem_of_nil in Hin.
  - destruct st as [f u]. simpl in H. subst f. by apply elem_of_nil in Hin.
  - destruct (handle_store_step c req st)
      as [|sid k0 r0 _ Hk|k0 r0 _ Hk|k0 pg r0 _ Hk
          |k0 ts pv tp r0 e _ Hk He Hv|file u1 u2 h _ _|k0 r0 _ _].
    + by apply IH.
    + apply elem_set in Hin as [[= -> ->]|Hin]; [|by apply IH].
      apply (Hlog _ _ view req JUndefined); [by right|]. by apply IH, get_Some_elem.
    + apply elem_set in Hin as [[= -> ->]|Hin]; [|by apply IH].
      apply (Hlog _ _ download req JUndefined); [by right|].
      by apply IH, get_Some_elem.
    + apply elem_set in Hin as [[= -> ->]|Hin]; [|by apply IH].
      apply (Hlog _ _ page_view req pg); [by left|]. by apply IH, get_Some_elem.
    + apply elem_set in Hin as [[= -> ->]|Hin]; [|by apply IH].
      apply (Hsess _ _ e ts pv tp); [done..|]. by apply IH, get_Some_elem.
    + apply elem_set in Hin as [[= -> ->]|Hin]; [|by apply IH].
      apply (Hnew file u1 u2 h req).
    + apply elem_del in Hin as [Hin _]. by apply IH.
Qed.

(** X11: in every state reachable from an empty store, each record is
    stored under its own [trackingId], its [shortId] is the first group
    of that identifier, [allowDownload] is true (nothing ever clears it),
    its stored file name is a uuid, a dash and the original name, and its
    viewer link ends in [/v/<shortId>]. *)
Theorem X11_records_keep_their_identity st k r :
  reachable st ->
  get (records st) k = Some r ->
  trackingId r = k /\
  shortId r = split_dash_0 k /\
  allowDownload r = true /\
  (exists u, fileName r = u +:+ "-" +:+ originalName r) /\
  (exists base, viewerUrl r = base +:+ "/v/" +:+ shortId r).
Proof.
  intros Hreach Hr. apply get_Some_elem in Hr. revert st Hreach k r Hr.
  apply (reachable_records_ind record_identified).
  - intros k r act req pg _ H. by destruct act.
  - intros k r e ts pv tp _ _ H. done.
  - intros file u1 u2 h req. unfold record_identified. cbn.
    split_and!; [done | done | done | by eexists | by eexists].
Qed.

Lemma st_paged_reachable : reachable st_paged.
Proof.
  apply (reachable_run
           [(POST_upload (Some pdf_part) "f0000000-0000-4000-8000-000000000000" id_a, req0);
            (GET_v "aaaaaaaa", req0);
            (POST_track_page id_a (JNumber (of_int 1)), req0)] st_init).
  apply reach_init. left. reflexivity.
Qed.

Lemma X11_records_keep_their_identity_witness :
  get (records st_paged) id_a = Some rec_a_paged /\
  trackingId rec_a_paged = id_a /\ shortId rec_a_paged = split_dash_0 id_a.
Proof.
  split; [reflexivity|].
  destruct (X11_records_keep_their_identity st_paged id_a rec_a_paged)
    as (H1 & H2 & _); [apply st_paged_reachable | reflexivity |].
  split; [exact H1 | exact H2].
Defined.

Lemma Forall_snoc_shaped l e :
  Forall entry_shaped l -> entry_shaped e -> Forall entry_shaped (l ++ [e]).
Proof. intros Hl He. apply Forall_app. split; [done|]. by apply Forall_singleton. Qed.

(** X12: in every reachable state the optional fields of a log entry
    follow its action: only page_view entries carry a [page], and only
    view entries carry a session summary ([timeSpent], [pagesViewed],
    [totalPages], [completion]). *)
Theorem X12_entry_fields_follow_action st k r e :
  reachable st ->
  get (records st) k = Some r ->
  e ∈ accessLogs r ->
  (action e <> page_view -> page e = JUndefined) /\
  (action e <> view ->
     timeSpent e = JUndefined /\ pagesViewed e = JUndefined /\
     totalPages e = JUndefined /\ completion e = JUndefined).
Proof.
  intros Hreach Hr He. apply get_Some_elem in Hr.
  pose proof (reachable_records_ind (fun _ r => Forall entry_shaped (accessLogs r))) as Hind.
  refine (proj1 (Forall_forall _ _) (Hind _ _ _ st Hreach k r Hr) e He).
  - intros k0 r0 act req pg Hpg H.
    assert (Hnew : entry_shaped
                     (mkEntry (now req) act (req_ip req) (user_agent req)
                        (JSON_roundtrip pg) JUndefined JUndefined JUndefined JUndefined)).
    { split; cbn; [|done]. intros Hact. destruct Hpg as [->| ->]; done. }
    destruct act; cbn; by apply Forall_snoc_shaped.
  - intros k0 r0 e0 ts pv tp Hl Hv H. cbn [accessLogs with_accessLogs].
    apply Forall_insert; [done|].
    assert (He0 : entry_shaped e0).
    { apply (proj1 (Forall_forall _ _) H). rewrite <- lookup_last_index in Hl.
      by eapply list_elem_of_lookup_2. }
    destruct He0 as [Hp _]. split; cbn; [done|]. intros Hne. congruence.
  - intros. constructor.
Qed.

Lemma X12_entry_fields_follow_action_witness :
  Forall (fun e => action e <> page_view -> page e = JUndefined) (accessLogs rec_a_paged).
Proof.
  apply Forall_forall. intros e He.
  destruct (X12_entry_fields_follow_action st_paged id_a rec_a_paged e) as [H _];
    [apply st_paged_reachable | reflexivity | exact He | exact H].
Defined.

(** ** What a single request keeps *)

Lemma entry_base_attach ts pv tp e : entry_base (attach_session ts pv tp e) = entry_base e.
Proof. done. Qed.

(** X13: no request rewrites history.  For a record of the store, any
    request other than its own deletion (or an upload that draws its
    identifier again) leaves it in place with the same identity fields;
    what [logAccess] recorded in its existing entries (timestamp, action,
    ip, user agent, page) is unchanged and in the same order, at most one
    entry is added at the end, and neither counter decreases or grows by
    more than one. *)
Theorem X13_log_history_is_kept c req st k r :
  get (records st) k = Some r ->
  assigns k c = false ->
  deletes k c = false ->
  exists r' added,
    get (records (snd (handle c req st))) k = Some r' /\
    entry_base <$> accessLogs r' = ((entry_base <$> accessLogs r) ++ added)%list /\
    (length added <= 1)%nat /\
    totalViews r <= totalViews r' <= totalViews r + 1 /\
    totalDownloads r <= totalDownloads r' <= totalDownloads r + 1 /\
    trackingId r' = trackingId r /\ shortId r' = shortId r /\
    originalName r' = originalName r /\ fileName r' = fileName r /\
    uploadedAt r' = uploadedAt r.
Proof.
  intros Hr Ha Hd.
  assert (Hsame : exists r' added,
            Some r = Some r' /\
            entry_base <$> accessLogs r' = ((entry_base <$> accessLogs r) ++ added)%list /\
            (length added <= 1)%nat /\
            totalViews r <= totalViews r' <= totalViews r + 1 /\
            totalDownloads r <= totalDownloads r' <= totalDownloads r + 1 /\
            trackingId r' = trackingId r /\ shortId r' = shortId r /\
            originalName r' = originalName r /\ fileName r' = fileName r /\
            uploadedAt r' = uploadedAt r).
  { exists r, []. rewrite app_nil_r. split_and!; try done; simpl; lia. }
  assert (Hlog : forall act rq pg, exists r' added,
            Some (logged act rq pg r) = Some r' /\
            entry_base <$> accessLogs r' = ((entry_base <$> accessLogs r) ++ added)%list /\
            (length added <= 1)%nat /\
            totalViews r <= totalViews r' <= totalViews r + 1 /\
            totalDownloads r <= totalDownloads r' <= totalDownloads r + 1 /\
            trackingId r' = trackingId r /\ shortId r' = shortId r /\
            originalName r' = originalName r /\ fileName r' = fileName r /\
            uploadedAt r' = uploadedAt r).
  { intros act rq pg. eexists _, _. split; [reflexivity|].
    destruct act; cbn [logged incr_totalViews incr_totalDownloads push_log accessLogs
                       totalViews totalDownloads trackingId shortId originalName
                       fileName uploadedAt];
      rewrite fmap_app; split_and!; try reflexivity; simpl; lia. }
  destruct (handle_store_step c req st)
    as [|sid k0 r0 _ Hk|k0 r0 _ Hk|k0 pg r0 _ Hk
        |k0 ts pv tp r0 e _ Hk He Hv|file u1 u2 h -> _|k0 r0 -> _].
  - by rewrite Hr.
  - destruct (decide (k0 = k)) as [->|Hne].
    + rewrite get_set_eq. assert (r0 = r) as -> by congruence. apply Hlog.
    + rewrite get_set_ne by done. by rewrite Hr.
  - destruct (decide (k0 = k)) as [->|Hne].
    + rewrite get_set_eq. assert (r0 = r) as -> by congruence. apply Hlog.
    + rewrite get_set_ne by done. by rewrite Hr.
  - destruct (decide (k0 = k)) as [->|Hne].
    + rewrite get_set_eq. assert (r0 = r) as -> by congruence. apply Hlog.
    + rewrite get_set_ne by done. by rewrite Hr.
  - destruct (decide (k0 = k)) as [->|Hne].
    + rewrite get_set_eq. assert (r0 = r) as -> by congruence.
      eexists _, []. split; [reflexivity|].
      cbn [with_accessLogs accessLogs totalViews totalDownloads trackingId shortId
           originalName fileName uploadedAt].
      rewrite list_fmap_insert, entry_base_attach, app_nil_r.
      rewrite list_insert_id
        by (rewrite list_lookup_fmap, lookup_last_index, He; done).
      split_and!; try reflexivity; simpl; lia.
    + rewrite get_set_ne by done. by rewrite Hr.
  - cbn [assigns] in Ha. apply String.eqb_neq in Ha.
    rewrite get_set_ne by done. by rewrite Hr.
  - cbn [deletes] in Hd. apply String.eqb_neq in Hd.
    rewrite get_del_ne by done. by rewrite Hr.
Qed.

Lemma X13_log_history_is_kept_witness :
  exists r',
    get (records (snd (handle (POST_track_session id_a (JNumber (of_int 12))
                                 (JNumber (of_int 1)) (JNumber (of_int 3)))
                         req0 st_viewed))) id_a = Some r' /\
    totalViews rec_a_viewed <= totalViews r'.
Proof.
  destruct (X13_log_history_is_kept
              (POST_track_session id_a (JNumber (of_int 12)) (JNumber (of_int 1))
                 (JNumber (of_int 3)))
              req0 st_viewed id_a rec_a_viewed)
    as (r' & added & Hr' & _ & _ & [Hv _] & _); [reflexivity..|].
  exists r'. split; [exact Hr' | exact Hv].
Defined.

Lemma logAccess_uploads id act req pg st :
  uploads (snd (logAccess id act req pg st)) = uploads st.
Proof.
  destruct (get (records st) id) as [r|] eqn:Hr.
  - rewrite (logAccess_found _ _ _ _ _ r Hr). cbn [snd].
    by rewrite uploads_save, uploads_loaded.
  - rewrite logAccess_unknown by done. cbn [snd]. apply uploads_loaded.
Qed.

(** X14: only upload and delete touch the files.  Every other request
    (viewer page, get-pdf, download, the three beacons, both stats
    routes) leaves the set of files under [uploads/] exactly as it
    was. *)
Theorem X14_tracking_never_touches_files c req st :
  touches_files c = false ->
  uploads (snd (handle c req st)) = uploads st.
Proof.
  destruct c as [part u1 u2|sid|id|id|id|id pg|id ts pv tp|id| |id];
    try done; intros _;
    try (rewrite read_only_loaded by done; apply uploads_loaded); cbn [handle].
  - unfold get_v. rewrite getTrackingData_eq.
    destruct (entries_find _ _) as [[id r0]|]; [|apply uploads_loaded].
    pose proof (logAccess_uploads id view req JUndefined (loaded st)) as H.
    rewrite uploads_loaded in H.
    by destruct (logAccess id view req JUndefined (loaded st)).
  - unfold post_log_download.
    pose proof (logAccess_uploads id download req JUndefined st) as H.
    by destruct (logAccess id download req JUndefined st).
  - unfold post_track_page.
    pose proof (logAccess_uploads id page_view req pg st) as H.
    by destruct (logAccess id page_view req pg st).
  - rewrite post_track_session_eq. cbn [snd]. unfold session_state.
    destruct (get (records st) id) as [r|]; [|apply uploads_loaded].
    destruct (last (accessLogs r)) as [e|]; [|apply uploads_loaded].
    destruct (Action_eqb (action e) view); [|apply uploads_loaded].
    by rewrite uploads_save, uploads_loaded.
Qed.

Lemma X14_tracking_never_touches_files_witness :
  uploads (snd (handle (GET_v "aaaaaaaa") req0 st_uploaded)) = uploads st_uploaded.
Proof.
  apply (X14_tracking_never_touches_files (GET_v "aaaaaaaa") req0 st_uploaded).
  reflexivity.
Defined.

(** ** Session summaries, again *)

Lemma set_set_eq {V} (o : list (string * V)) k v v' : set (set o k v) k v' = set o k v'.
Proof.
  induction o as [|[k0 v0] o IH]; simpl.
  - by rewrite eqb_string_true.
  - destruct (String.eqb k0 k) eqn:E; simpl; rewrite E; [done|]. by rewrite IH.
Qed.

Lemma session_state_loaded id ts pv tp st :
  session_state id ts pv tp (loaded st) = session_state id ts pv tp st.
Proof. unfold session_state. by rewrite records_loaded, loaded_idemp. Qed.

(** X15: the last summary wins.  Two track-session requests for the
    same identifier in a row leave exactly the state the second one alone
    would have left; in particular a duplicated beacon changes nothing
    more than the first copy did. *)
Theorem X15_last_session_summary_wins id ts1 pv1 tp1 ts2 pv2 tp2 st :
  snd (post_track_session id ts2 pv2 tp2 (snd (post_track_session id ts1 pv1 tp1 st)))
  = snd (post_track_session id ts2 pv2 tp2 st).
Proof.
  rewrite !post_track_session_eq. cbn [snd].
  unfold session_state at 2.
  destruct (get (records st) id) as [r|] eqn:Hr; [|apply session_state_loaded].
  destruct (last (accessLogs r)) as [e|] eqn:He; [|apply session_state_loaded].
  destruct (Action_eqb (action e) view) eqn:Hv; [|apply session_state_loaded].
  unfold session_state. rewrite Hr, He, Hv, records_save, get_set_eq.
  cbn [accessLogs with_accessLogs].
  erewrite last_insert_last by done. cbn [action attach_session]. rewrite Hv.
  rewrite length_insert, list_insert_insert_eq, set_set_eq.
  by destruct st as [[d|] u].
Qed.



(** ** The short identifier *)

Lemma split_dash_0_dash_free s : dash_free (split_dash_0 s) = true.
Proof.
  induction s as [|c s IH]; simpl; [done|].
  destruct (Ascii.eqb c "-") eqn:E; simpl; [done|]. by rewrite E.
Qed.

Lemma split_dash_0_prefix s : String.prefix (split_dash_0 s) s = true.
Proof.
  induction s as [|c s IH]; simpl; [done|].
  destruct (Ascii.eqb c "-") eqn:E; simpl; [done|].
  destruct (ascii_dec c c); [done | congruence].
Qed.

(** X17: the short identifier is the first dash-separated group of the
    tracking identifier.  For a dash-free [a], the short identifier of
    [a-b] is [a] whatever [b] is (so identifiers with the same first
    group share their short identifier), and that of [a] alone is [a];
    in general the short identifier is a dash-free prefix of the
    identifier. *)
Theorem X17_short_id_is_first_group a b :
  dash_free a = true ->
  split_dash_0 (a +:+ "-" +:+ b) = a /\
  split_dash_0 a = a /\
  dash_free (split_dash_0 b) = true /\
  String.prefix (split_dash_0 b) b = true.
Proof.
  intros Ha. split_and!.
  - induction a as [|c a IH]; simpl in *; [done|].
    apply andb_prop in Ha as [Hc Ha]. apply negb_true_iff in Hc.
    rewrite Hc. by rewrite IH.
  - induction a as [|c a IH]; simpl in *; [done|].
    apply andb_prop in Ha as [Hc Ha]. apply negb_true_iff in Hc.
    rewrite Hc. by rewrite IH.
  - apply split_dash_0_dash_free.
  - apply split_dash_0_prefix.
Qed.

Lemma X17_short_id_is_first_group_witness :
  split_dash_0 ("aaaaaaaa" +:+ "-" +:+ "1111-4111-8111-111111111111") = "aaaaaaaa".
Proof.
  destruct (X17_short_id_is_first_group "aaaaaaaa" "1111-4111-8111-111111111111")
    as [H _]; [reflexivity | exact H].
Defined.

(** ** The viewer script *)

Section ViewerFacts.

Import Viewer.

Local Ltac crush_consistent :=
  unfold consistent, lastPage in *; cbn in *;
  split_and!; auto; intros; simplify_eq; try lia; auto.

Lemma consistent_trackPageView num s :
  consistent s -> (1 <= num <= lastPage s)%Z -> consistent (trackPageView num s).
Proof.
  intros (Hnd & Hsent & Hnum & Hviews & Hpend) Hb. unfold trackPageView.
  destruct (bool_decide_reflect (num ∈ pageViews s)) as [Hin|Hnin].
  - crush_consistent.
  - crush_consistent.
    + apply NoDup_app. split_and!; [done | | apply NoDup_singleton].
      intros x Hx ->%list_elem_of_singleton. done.
    + by rewrite fmap_app, Hsent.
    + apply Forall_app. split; [done | by apply Forall_singleton].
Qed.

Lemma consistent_renderPage num s :
  consistent s -> (1 <= num <= lastPage s)%Z -> consistent (renderPage num s).
Proof.
  intros Hs Hb. unfold renderPage. apply consistent_trackPageView; [|done].
  destruct Hs as (Hnd & Hsent & Hnum & Hviews & Hpend). crush_consistent.
Qed.

Lemma consistent_queueRenderPage num s :
  consistent s -> (1 <= num <= lastPage s)%Z -> consistent (queueRenderPage num s).
Proof.
  intros Hs Hb. unfold queueRenderPage. destruct (pageRendering s).
  - destruct Hs as (Hnd & Hsent & Hnum & Hviews & Hpend). crush_consistent.
  - by apply consistent_renderPage.
Qed.

Lemma consistent_with_pageNum n s :
  consistent s -> (1 <= n <= lastPage s)%Z -> consistent (with_pageNum n s).
Proof. intros (Hnd & Hsent & Hnum & Hviews & Hpend) Hb. crush_consistent. Qed.

Lemma consistent_with_scale x s : consistent s -> consistent (with_scale x s).
Proof. intros (Hnd & Hsent & Hnum & Hviews & Hpend). crush_consistent. Qed.

Lemma consistent_step ev s : consistent s -> consistent (step ev s).
Proof.
  intros Hs. pose proof Hs as (Hnd & Hsent & Hnum & Hviews & Hpend).
  destruct ev; cbn [step].
  - unfold onPrevPage. destruct (Z.leb_spec (pageNum s) 1); [done|].
    assert (Hb : (1 <= pageNum s - 1 <= lastPage s)%Z) by lia.
    apply consistent_queueRenderPage; [by apply consistent_with_pageNum | done].
  - unfold onNextPage. destruct (pdfDoc s) as [n|] eqn:Hdoc; [|done].
    destruct (Z.leb_spec n (pageNum s)); [done|].
    assert (Hb : (1 <= pageNum s + 1 <= lastPage s)%Z)
      by (unfold lastPage in *; rewrite Hdoc in *; lia).
    apply consistent_queueRenderPage; [by apply consistent_with_pageNum | done].
  - unfold zoomIn. apply consistent_queueRenderPage; [by apply consistent_with_scale | done].
  - unfold zoomOut. destruct (gt (scale s) lit_0_5); [|done].
    apply consistent_queueRenderPage; [by apply consistent_with_scale | done].
  - unfold renderDone. cbn [pageNumPending].
    destruct (pageNumPending s) as [p|] eqn:Hp; [|crush_consistent].
    assert (Hr : consistent
                   (renderPage p
                      (mkScript (trackingId s) (currentPage s) (pageViews s) (pdfDoc s)
                         (pageNum s) false (Some p) (scale s) (sent s)))).
    { apply consistent_renderPage; [|by apply Hpend]. crush_consistent. }
    destruct Hr as (? & ? & ? & ? & ?). crush_consistent.
Qed.

Lemma consistent_documentLoaded n s :
  consistent s -> pdfDoc s = None -> consistent (documentLoaded n s).
Proof.
  intros (Hnd & Hsent & Hnum & Hviews & Hpend) Hdoc. unfold documentLoaded.
  unfold lastPage in *. rewrite Hdoc in *.
  apply consistent_renderPage; [|unfold lastPage; cbn; lia].
  unfold consistent, lastPage. cbn. split_and!; auto; try lia.
  - eapply Forall_impl; [done|]. cbn. lia.
  - intros p Hp. specialize (Hpend p Hp). lia.
Qed.

Lemma trackingId_step ev s : trackingId (step ev s) = trackingId s.
Proof.
  destruct ev; cbn [step];
    unfold onPrevPage, onNextPage, zoomIn, zoomOut, renderDone, queueRenderPage,
      renderPage, trackPageView; cbn;
    repeat (case_match; cbn); done.
Qed.

Lemma running_consistent tid s : running tid s -> consistent s /\ trackingId s = tid.
Proof.
  induction 1 as [|s ev _ [IH Ht]|s n _ [IH Ht] Hdoc].
  - split; [|done]. unfold consistent, lastPage. cbn.
    split_and!; try lia; try done; constructor.
  - split; [by apply consistent_step | by rewrite trackingId_step].
  - split; [by apply consistent_documentLoaded|].
    unfold documentLoaded, renderPage, trackPageView. by case_match.
Qed.

(** X18: the viewer script reports each page once.  In every state the
    script can reach, the page numbers it has recorded are pairwise
    distinct, and the requests it has sent are exactly one track-page
    request per recorded page, for the page's tracking identifier, in
    the order the pages were first displayed. *)
Theorem X18_viewer_reports_each_page_once tid s :
  running tid s ->
  NoDup (pageViews s) /\
  sent s = (fun n => POST_track_page tid (JNumber (of_int n))) <$> pageViews s /\
  length (sent s) = length (pageViews s).
Proof.
  intros [(Hnd & Hsent & _) <-]%running_consistent.
  split_and!; [done | done |]. by rewrite Hsent, length_fmap.
Qed.

Lemma X18_viewer_reports_each_page_once_witness :
  let s := step RenderDone (step NextPage (step RenderDone (step ZoomIn
             (documentLoaded 3 (init id_a))))) in
  pageViews s = [1; 2]%Z /\ length (sent s) = 2%nat.
Proof.
  split; [reflexivity|].
  destruct (X18_viewer_reports_each_page_once id_a
              (step RenderDone (step NextPage (step RenderDone (step ZoomIn
                 (documentLoaded 3 (init id_a)))))))
    as (_ & _ & H); [|exact H].
  repeat apply run_event. apply run_loaded; [apply run_init | reflexivity].
Defined.

Lemma bounded_NoDup_length (l : list Z) (n : Z) :
  NoDup l -> Forall (fun p => 1 <= p <= n)%Z l -> (Z.of_nat (length l) <= Z.max 0 n)%Z.
Proof.
  intros Hnd Hall.
  assert (Hsub : l ⊆+ seqZ 1 n).
  { apply NoDup_submseteq; [done|]. intros x Hx.
    apply elem_of_seqZ. rewrite Forall_forall in Hall. specialize (Hall x Hx). lia. }
  apply submseteq_length in Hsub. rewrite length_seqZ in Hsub. lia.
Qed.

(** X19: the viewer script stays inside the document.  In every state
    it can reach, the current page number and every page it has recorded
    lie between 1 and the last page (1 while the document is not loaded),
    so the [pagesViewed] it would put in the beacon never exceeds the
    last page; once a document with at least one page is loaded,
    [pagesViewed <= totalPages]. *)
Theorem X19_viewer_stays_inside_document tid s :
  running tid s ->
  (1 <= pageNum s <= lastPage s)%Z /\
  Forall (fun p => 1 <= p <= lastPage s)%Z (pageViews s) /\
  (pagesViewed s <= lastPage s)%Z /\
  (forall n, pdfDoc s = Some n -> (1 <= n)%Z -> (pagesViewed s <= totalPages s)%Z).
Proof.
  intros [(Hnd & _ & Hnum & Hviews & _) _]%running_consistent.
  assert (Hlen : (pagesViewed s <= lastPage s)%Z).
  { pose proof (bounded_NoDup_length _ _ Hnd Hviews). unfold pagesViewed. lia. }
  split_and!; auto; try lia.
  intros n Hn Hpos. unfold totalPages, lastPage in *. rewrite Hn in *. lia.
Qed.

Lemma X19_viewer_stays_inside_document_witness :
  let s := step NextPage (step NextPage (step NextPage (step RenderDone
             (documentLoaded 2 (init id_a))))) in
  (1 <= pageNum s <= 2)%Z.
Proof.
  destruct (X19_viewer_stays_inside_document id_a
              (step NextPage (step NextPage (step NextPage (step RenderDone
                 (documentLoaded 2 (init id_a)))))))
    as (H & _); [|exact H].
  repeat apply run_event. apply run_loaded; [apply run_init | reflexivity].
Defined.

End ViewerFacts.

(** ** From the viewer script to the log *)

Lemma run_track_pages tid (pages : list Z) :
  forall cs st r,
    fst <$> cs = (fun n => POST_track_page tid (JNumber (of_int n))) <$> pages ->
    get (records st) tid = Some r ->
    exists r',
      get (records (run cs st)) tid = Some r' /\
      accessLogs r' =
        (accessLogs r ++
         zip_with (fun p rq => page_entry (JNumber (of_int p)) rq) pages (snd <$> cs))%list /\
      totalViews r' = totalViews r /\ totalDownloads r' = totalDownloads r.
Proof.
  induction pages as [|p pages IH]; intros [|[c rq] cs] st r Hcs Hr; try done.
  - exists r. by rewrite app_nil_r.
  - cbn in Hcs. injection Hcs as -> Hcs. cbn [run handle].
    rewrite (post_track_page_found _ _ _ _ r Hr). cbn [snd].
    set (st1 := saveTrackingData _ _).
    destruct (IH cs st1 (logged page_view rq (JNumber (of_int p)) r) Hcs)
      as (r' & Hr' & Hlogs & Hv & Hd); [apply get_set_eq|].
    exists r'. split; [done|]. rewrite Hlogs, Hv, Hd.
    cbn [logged push_log accessLogs totalViews totalDownloads].
    by rewrite <- app_assoc.
Qed.

Lemma count_page_entries (pages : list Z) (reqs : list Req) :
  count_action page_view
    (zip_with (fun p rq => page_entry (JNumber (of_int p)) rq) pages reqs)
  = length (zip_with (fun p rq => page_entry (JNumber (of_int p)) rq) pages reqs).
Proof.
  revert reqs. induction pages as [|p pages IH]; intros [|rq reqs]; try done.
  unfold count_action in *. cbn. by rewrite IH.
Qed.

(** X20: the pages a viewing session reports end up in the log once
    each.  When the requests sent by a viewer script (in any state it can
    reach) are handled in order by the server, on a store that holds the
    record, the record's log grows by exactly one page_view entry per
    distinct page displayed, in order of first display, each carrying its
    page number, and the view and download counters do not move. *)
Theorem X20_session_pages_logged_once tid s cs st r :
  Viewer.running tid s ->
  fst <$> cs = Viewer.sent s ->
  get (records st) tid = Some r ->
  exists r',
    get (records (run cs st)) tid = Some r' /\
    accessLogs r' =
      (accessLogs r ++
       zip_with (fun p rq => page_entry (JNumber (of_int p)) rq)
         (Viewer.pageViews s) (snd <$> cs))%list /\
    count_action page_view (accessLogs r') =
      (count_action page_view (accessLogs r) + length (Viewer.pageViews s))%nat /\
    NoDup (Viewer.pageViews s) /\
    totalViews r' = totalViews r /\ totalDownloads r' = totalDownloads r.
Proof.
  intros [(Hnd & Hsent & _) Ht]%running_consistent Hcs Hr.
  rewrite Hsent, Ht in Hcs.
  destruct (run_track_pages tid _ cs st r Hcs Hr) as (r' & Hr' & Hlogs & Hv & Hd).
  exists r'. split_and!; try done.
  rewrite Hlogs, count_action_app, count_page_entries, length_zip_with.
  apply (f_equal length) in Hcs. rewrite !length_fmap in Hcs.
  rewrite length_fmap. lia.
Qed.

Lemma X20_session_pages_logged_once_witness :
  let s := Viewer.step Viewer.RenderDone (Viewer.step Viewer.NextPage
             (Viewer.step Viewer.RenderDone (Viewer.documentLoaded 3 (Viewer.init id_a)))) in
  exists r',
    get (records (run ((fun c => (c, req0)) <$> Viewer.sent s) st_viewed)) id_a = Some r' /\
    count_action page_view (accessLogs r') = 2%nat.
Proof.
  destruct (X20_session_pages_logged_once id_a
              (Viewer.step Viewer.RenderDone (Viewer.step Viewer.NextPage
                 (Viewer.step Viewer.RenderDone
                    (Viewer.documentLoaded 3 (Viewer.init id_a)))))
              ((fun c => (c, req0)) <$>
                 Viewer.sent
                   (Viewer.step Viewer.RenderDone (Viewer.step Viewer.NextPage
                      (Viewer.step Viewer.RenderDone
                         (Viewer.documentLoaded 3 (Viewer.init id_a))))))
              st_viewed rec_a_viewed)
    as (r' & Hr' & _ & Hc & _).
  - repeat apply Viewer.run_event.
    apply Viewer.run_loaded; [apply Viewer.run_init | reflexivity].
  - reflexivity.
  - reflexivity.
  - exists r'. split; [exact Hr' | exact Hc].
Defined.

(** ** The pixel-tracking server *)

Section PixelFacts.

Import Pixel.

Lemma pixel_getTrackingData_eq st :
  getTrackingData st = (records st, snd (getTrackingData st)).
Proof. unfold records. by destruct (getTrackingData st). Qed.

Lemma pixel_records_loaded st : records (snd (getTrackingData st)) = records st.
Proof. by destruct st as [[d|] u t]. Qed.

Lemma pixel_uploads_loaded st : uploads (snd (getTrackingData st)) = uploads st.
Proof. by destruct st as [[d|] u t]. Qed.

Lemma pixel_tracked_loaded st : tracked_pdfs (snd (getTrackingData st)) = tracked_pdfs st.
Proof. by destruct st as [[d|] u t]. Qed.

Lemma pixel_records_files st u t : records (mkState (trackingFile st) u t) = records st.
Proof. by destruct st as [[d|] u0 t0]. Qed.

Lemma pixel_logAccess_found id req st r :
  get (records st) id = Some r ->
  logAccess id req st =
    (true,
     saveTrackingData
       (set (records st) id
          (mkRecord (trackingId r) (originalName r) (trackedFileName r) (uploadedAt r)
             (accessLogs r ++ [mkLog (now req) (req_ip req) (user_agent req)])
             (Z.of_nat (length (accessLogs r ++ [mkLog (now req) (req_ip req) (user_agent req)])))
             (trackingUrl r)))
       (snd (getTrackingData st))).
Proof. intros Hr. unfold logAccess. by rewrite pixel_getTrackingData_eq, Hr. Qed.

Lemma pixel_logAccess_unknown id req st :
  get (records st) id = None -> logAccess id req st = (false, snd (getTrackingData st)).
Proof. intros Hr. unfold logAccess. by rewrite pixel_getTrackingData_eq, Hr. Qed.

(** Every way a request changes the document keeps a property of
    records that logging keeps and a fresh record has. *)
Lemma pixel_handle_Forall (P : TrackingRecord -> Prop) c req st :
  (forall r l, P r ->
     P (mkRecord (trackingId r) (originalName r) (trackedFileName r) (uploadedAt r)
          (accessLogs r ++ [l]) (Z.of_nat (length (accessLogs r ++ [l]))) (trackingUrl r))) ->
  (forall id name file at_ url, P (mkRecord id name file at_ [] 0 url)) ->
  Forall (fun kv => P (snd kv)) (records st) ->
  Forall (fun kv => P (snd kv)) (records (snd (handle c req st))).
Proof.
  intros Hlog Hnew Hall.
  assert (Hacc : forall id,
            Forall (fun kv => P (snd kv)) (records (snd (logAccess id req st)))).
  { intros id. destruct (get (records st) id) as [r|] eqn:Hr.
    - rewrite (pixel_logAccess_found _ _ _ r Hr). cbn [snd].
      apply Forall_set; [done|]. cbn [snd]. apply Hlog.
      apply get_Some_elem in Hr. by apply (proj1 (Forall_forall _ _) Hall (id, r)).
    - rewrite pixel_logAccess_unknown by done. cbn [snd].
      by rewrite pixel_records_loaded. }
  destruct c as [part u1 u2 inject|id|id|id|id| |id]; cbn [handle].
  - unfold post_upload. destruct part as [file|]; [|done].
    destruct (fileFilter file); [|done].
    destruct (host req) as [h|]; [|cbn [snd]; by rewrite pixel_records_files].
    destruct inject as [msg|]; [cbn [snd]; by rewrite pixel_records_files|].
    rewrite pixel_getTrackingData_eq. cbn [snd trackingFile].
    change (records (saveTrackingData ?d _)) with d.
    rewrite !pixel_records_files. apply Forall_set; [done | apply Hnew].
  - unfold get_track. specialize (Hacc id). by destruct (logAccess id req st).
  - unfold get_test_track. specialize (Hacc id). by destruct (logAccess id req st).
  - unfold get_download_tracked. rewrite pixel_getTrackingData_eq.
    destruct (get (records st) id) as [r|];
      [case_bool_decide; [destruct (header_value_ok _)|]|];
      cbn [snd]; by rewrite pixel_records_loaded.
  - unfold get_stats. rewrite pixel_getTrackingData_eq.
    destruct (get (records st) id) as [r|]; cbn [snd]; by rewrite pixel_records_loaded.
  - unfold get_stats_all. rewrite pixel_getTrackingData_eq. cbn [snd].
    by rewrite pixel_records_loaded.
  - unfold delete_delete. rewrite pixel_getTrackingData_eq.
    destruct (get (records st) id) as [r|]; cbn [snd].
    + by apply Forall_del.
    + by rewrite pixel_records_loaded.
Qed.

(** X21: in every state of the pixel-tracking server reachable from an
    empty store, each record's [totalOpens] is the length of its access
    log. *)
Theorem X21_pixel_totalOpens_is_log_length st k r :
  reachable st ->
  get (records st) k = Some r ->
  totalOpens r = Z.of_nat (length (accessLogs r)).
Proof.
  intros Hreach Hr. apply get_Some_elem in Hr.
  assert (Hall : Forall (fun kv => totalOpens (snd kv)
                                   = Z.of_nat (length (accessLogs (snd kv)))) (records st)).
  { clear k r Hr. induction Hreach as [st [H|H]|st c req _ IH].
    - destruct st as [f u t]. simpl in H. subst f. constructor.
    - destruct st as [f u t]. simpl in H. subst f. constructor.
    - by apply (pixel_handle_Forall
                  (fun r => totalOpens r = Z.of_nat (length (accessLogs r)))). }
  by apply (proj1 (Forall_forall _ _) Hall (k, r)).
Qed.

Lemma X21_pixel_totalOpens_is_log_length_witness :
  let st := snd (handle (GET_track id_a) req0
                   (snd (handle (POST_upload (Some pdf_part) "f0" id_a None) req0 st_init))) in
  exists r, get (records st) id_a = Some r /\ totalOpens r = 1.
Proof.
  eexists. split; [reflexivity|].
  apply (X21_pixel_totalOpens_is_log_length
           (snd (handle (GET_track id_a) req0
                   (snd (handle (POST_upload (Some pdf_part) "f0" id_a None) req0 st_init))))
           id_a).
  - apply reach_step, reach_step, reach_init. by left.
  - reflexivity.
Defined.

Lemma pixel_serve_handle c req st :
  (forall id, looked_up c = Some id -> resolves_inherited (records st) id = false) ->
  serve c req st = handle c req st.
Proof.
  intros H. unfold serve. destruct (looked_up c) as [id|]; [|done].
  by rewrite (H id).
Qed.

(** X22: the tracking pixel answers with the image for every identifier
    except the unstored names of inherited properties.  For an identifier
    of the store the pixel route answers the 200 PNG, appends one access
    entry and sets [totalOpens] to the new length of the log, whatever
    the counter held; for an identifier that names nothing it answers the
    200 PNG and changes no record.  For an identifier that is not stored
    but names a property every object inherits ([constructor],
    [__proto__], ...), [logAccess] throws and the route, which has no
    [catch], answers 500; no record changes.  In no case is a file
    touched. *)
Theorem X22_pixel_answers_unless_inherited id req st :
  uploads (snd (serve (GET_track id) req st)) = uploads st /\
  tracked_pdfs (snd (serve (GET_track id) req st)) = tracked_pdfs st /\
  (forall r, get (records st) id = Some r ->
     fst (serve (GET_track id) req st) = mkResponse 200 Png /\
     exists r',
       get (records (snd (serve (GET_track id) req st))) id = Some r' /\
       accessLogs r' = (accessLogs r ++ [mkLog (now req) (req_ip req) (user_agent req)])%list /\
       totalOpens r' = Z.of_nat (length (accessLogs r)) + 1) /\
  (get (records st) id = None -> inherited id = false ->
     fst (serve (GET_track id) req st) = mkResponse 200 Png /\
     records (snd (serve (GET_track id) req st)) = records st) /\
  (get (records st) id = None -> inherited id = true ->
     status (fst (serve (GET_track id) req st)) = 500%nat /\
     records (snd (serve (GET_track id) req st)) = records st).
Proof.
  destruct (get (records st) id) as [r|] eqn:Hr.
  - rewrite pixel_serve_handle
      by (intros id' [= <-]; by eapply resolves_inherited_own).
    cbn [handle]. unfold get_track.
    rewrite (pixel_logAccess_found _ _ _ r Hr). cbn [fst snd].
    split_and!; [apply pixel_uploads_loaded | apply pixel_tracked_loaded | | done | done].
    intros r0 [= <-]. split; [done|]. eexists. split; [apply get_set_eq|].
    cbn [accessLogs totalOpens]. split; [done|]. rewrite length_app. simpl. lia.
  - destruct (inherited id) eqn:Hin.
    + unfold serve. cbn [looked_up].
      rewrite resolves_inherited_unknown, Hin by done. cbn [fst snd].
      split_and!; [apply pixel_uploads_loaded | apply pixel_tracked_loaded
                   | done | done |].
      intros _ _. split; [done | apply pixel_records_loaded].
    + rewrite pixel_serve_handle
        by (intros id' [= <-]; by rewrite resolves_inherited_unknown).
      cbn [handle]. unfold get_track.
      rewrite pixel_logAccess_unknown by done. cbn [fst snd].
      split_and!; [apply pixel_uploads_loaded | apply pixel_tracked_loaded
                   | done | | done].
      intros _ _. split; [done | apply pixel_records_loaded].
Qed.

(** X23: deleting a record of the pixel-tracking server removes the
    record and the rewritten file under [tracked-pdfs/], and later stats
    and download requests for it answer 404; the original upload under
    [uploads/] is not removed. *)
Theorem X23_pixel_delete_keeps_original st id r :
  get (records st) id = Some r ->
  let st' := snd (delete_delete id st) in
  fst (delete_delete id st) = mkResponse 200 Deleted /\
  get (records st') id = None /\
  (trackedFileName r ∉ tracked_pdfs st') /\
  uploads st' = uploads st /\
  status (fst (get_stats id st')) = 404%nat /\
  status (fst (get_download_tracked id st')) = 404%nat.
Proof.
  intros Hr st'. subst st'. unfold delete_delete.
  rewrite pixel_getTrackingData_eq, Hr. cbn [fst snd].
  set (st2 := if bool_decide _ then _ else _).
  assert (Hgone : get (records (saveTrackingData (del (records st) id) st2)) id = None)
    by apply get_del_eq.
  split_and!.
  - done.
  - done.
  - subst st2. cbn [saveTrackingData tracked_pdfs].
    case_bool_decide as Hin; cbn [tracked_pdfs].
    + rewrite elem_of_difference, elem_of_singleton. by intros [_ ?].
    + done.
  - subst st2. cbn [saveTrackingData uploads].
    case_bool_decide; cbn [uploads]; apply pixel_uploads_loaded.
  - unfold get_stats. by rewrite pixel_getTrackingData_eq, Hgone.
  - unfold get_download_tracked. by rewrite pixel_getTrackingData_eq, Hgone.
Qed.

Lemma X23_pixel_delete_keeps_original_witness :
  let st := snd (handle (POST_upload (Some pdf_part) "f0" id_a None) req0 st_init) in
  uploads (snd (delete_delete id_a st)) = uploads st.
Proof.
  destruct (X23_pixel_delete_keeps_original
              (snd (handle (POST_upload (Some pdf_part) "f0" id_a None) req0 st_init))
              id_a
              (mkRecord id_a "report.pdf"
                 "tracked-aaaaaaaa-1111-4111-8111-111111111111.pdf"
                 "2025-01-01T00:00:00.000Z" [] 0
                 "http://localhost:3000/track/aaaaaaaa-1111-4111-8111-111111111111.png"))
    as (_ & _ & _ & H & _); [reflexivity | exact H].
Defined.

(** X24: no request of the pixel-tracking server ever removes a file
    from [uploads/]: the files there after a request include all those
    of before. *)
Theorem X24_pixel_uploads_never_removed c req st :
  uploads st ⊆ uploads (snd (handle c req st)).
Proof.
  assert (Hacc : forall id, uploads (snd (logAccess id req st)) = uploads st).
  { intros id. destruct (get (records st) id) as [r|] eqn:Hr.
    - rewrite (pixel_logAccess_found _ _ _ r Hr). apply pixel_uploads_loaded.
    - rewrite pixel_logAccess_unknown by done. apply pixel_uploads_loaded. }
  destruct c as [part u1 u2 inject|id|id|id|id| |id]; cbn [handle].
  - unfold post_upload. destruct part as [file|]; [|done].
    destruct (fileFilter file); [|done].
    destruct (host req) as [h|]; [|cbn [snd uploads]; apply union_subseteq_r].
    destruct inject as [msg|]; [cbn [snd uploads]; apply union_subseteq_r|].
    rewrite pixel_getTrackingData_eq. cbn [snd saveTrackingData uploads].
    rewrite pixel_uploads_loaded. cbn [uploads]. apply union_subseteq_r.
  - unfold get_track. specialize (Hacc id).
    destruct (logAccess id req st). cbn in *. by rewrite Hacc.
  - unfold get_test_track. specialize (Hacc id).
    destruct (logAccess id req st). cbn in *. by rewrite Hacc.
  - unfold get_download_tracked. rewrite pixel_getTrackingData_eq.
    destruct (get (records st) id) as [r|];
      [case_bool_decide; [destruct (header_value_ok _)|]|];
      cbn [snd]; by rewrite pixel_uploads_loaded.
  - unfold get_stats. rewrite pixel_getTrackingData_eq.
    destruct (get (records st) id) as [r|]; cbn [snd]; by rewrite pixel_uploads_loaded.
  - unfold get_stats_all. rewrite pixel_getTrackingData_eq. cbn [snd].
    by rewrite pixel_uploads_loaded.
  - unfold delete_delete. rewrite pixel_getTrackingData_eq.
    destruct (get (records st) id) as [r|]; cbn [snd].
    + cbn [saveTrackingData uploads]. case_bool_decide; cbn [uploads];
        by rewrite pixel_uploads_loaded.
    + by rewrite pixel_uploads_loaded.
Qed.

(** X25: an accepted upload to the pixel-tracking server that fails
    after multer stored the file (no Host header, or pdf-lib throwing on
    the file) answers 500, creates no record and no rewritten file, and
    leaves the stored upload behind. *)
Theorem X25_pixel_failed_upload_leaves_file file u1 u2 inject req st :
  mimetype file = "application/pdf" ->
  host req = None \/ (exists msg, inject = Some msg) ->
  let st' := snd (post_upload (Some file) u1 u2 inject req st) in
  status (fst (post_upload (Some file) u1 u2 inject req st)) = 500%nat /\
  records st' = records st /\
  tracked_pdfs st' = tracked_pdfs st /\
  uploads st' = {[ u1 +:+ "-" +:+ originalname file ]} ∪ uploads st.
Proof.
  intros Hm Hfail st'. subst st'. unfold post_upload, fileFilter.
  rewrite Hm. cbn [String.eqb]. rewrite !Ascii.eqb_refl.
  destruct (host req) as [h|].
  - destruct Hfail as [|[msg ->]]; [done|]. by destruct st as [[d|] u t].
  - by destruct st as [[d|] u t].
Qed.

Lemma X25_pixel_failed_upload_leaves_file_witness :
  records (snd (post_upload (Some pdf_part) "f0" id_a (Some "Failed to parse PDF document")
                  req0 st_init))
  = records st_init.
Proof.
  apply (X25_pixel_failed_upload_leaves_file pdf_part "f0" id_a
           (Some "Failed to parse PDF document") req0 st_init).
  - reflexivity.
  - right. by eexists.
Defined.

(** X26: on the pixel-tracking server upload then download is a round
    trip for names that can go into a header: after an upload that
    succeeds, the stats request for the returned identifier shows no opens
    and an empty log, and the download request serves [tracked-<id>.pdf]
    as an attachment named as the uploaded file was when that name is a
    legal header value, and answers 500 [Error downloading PDF] when it
    is not. *)
Theorem X26_pixel_upload_then_download file u1 u2 req st h :
  mimetype file = "application/pdf" ->
  host req = Some h ->
  let st' := snd (post_upload (Some file) u1 u2 None req st) in
  (exists dl stats,
     fst (post_upload (Some file) u1 u2 None req st) =
       mkResponse 200 (Uploaded u2 dl stats)) /\
  (header_value_ok (originalname file) = true ->
     fst (get_download_tracked u2 st') =
       mkResponse 200 (PdfFile ("tracked-" +:+ u2 +:+ ".pdf") (originalname file))) /\
  (header_value_ok (originalname file) = false ->
     fst (get_download_tracked u2 st') = mkResponse 500 (Text "Error downloading PDF")) /\
  (exists r, fst (get_stats u2 st') = mkResponse 200 (RecordJson r) /\
             totalOpens r = 0 /\ accessLogs r = []).
Proof.
  intros Hm Hh st'. subst st'. unfold post_upload, fileFilter.
  rewrite Hm, Hh. cbn [String.eqb]. rewrite !Ascii.eqb_refl.
  rewrite pixel_getTrackingData_eq. cbn [fst snd].
  set (st2 := saveTrackingData _ _).
  assert (Hget : exists r, get (records st2) u2 = Some r /\
                   trackedFileName r = "tracked-" +:+ u2 +:+ ".pdf" /\
                   originalName r = originalname file /\
                   totalOpens r = 0 /\ accessLogs r = []).
  { eexists. split; [apply get_set_eq|]. done. }
  destruct Hget as (r & Hr & Hf & Hn & Ho & Hl).
  assert (Hfile : "tracked-" +:+ u2 +:+ ".pdf" ∈ tracked_pdfs (snd (getTrackingData st2))).
  { rewrite pixel_tracked_loaded. subst st2. cbn [saveTrackingData tracked_pdfs].
    rewrite pixel_tracked_loaded. cbn [tracked_pdfs]. apply elem_of_union_l.
    by apply elem_of_singleton. }
  split_and!.
  - by eexists _, _.
  - intros Hok. unfold get_download_tracked.
    rewrite pixel_getTrackingData_eq, Hr, Hf, Hn, Hok.
    by rewrite bool_decide_eq_true_2.
  - intros Hok. unfold get_download_tracked.
    rewrite pixel_getTrackingData_eq, Hr, Hf, Hn, Hok.
    by rewrite bool_decide_eq_true_2.
  - exists r. unfold get_stats. by rewrite pixel_getTrackingData_eq, Hr.
Qed.

Lemma X26_pixel_upload_then_download_witness :
  fst (get_download_tracked id_a
         (snd (post_upload (Some pdf_part) "f0" id_a None req0 st_init)))
  = mkResponse 200
      (PdfFile "tracked-aaaaaaaa-1111-4111-8111-111111111111.pdf" "report.pdf").
Proof.
  destruct (X26_pixel_upload_then_download pdf_part "f0" id_a req0 st_init "localhost:3000")
    as (_ & H & _); [reflexivity | reflexivity |].
  apply H. reflexivity.
Defined.

End PixelFacts.

(** ** Inherited names and header values: the model on known inputs *)

Example inherited_names :
  inherited "constructor" = true /\ inherited "__proto__" = true /\
  inherited "toString" = true /\ inherited id_a = false /\ inherited "undefined" = false.
Proof. split_and!; reflexivity. Qed.

(** A name with a dash, such as a uuid, is never an inherited name. *)
Lemma inherited_dash_free k : inherited k = true -> dash_free k = true.
Proof.
  unfold inherited, Object_prototype. cbn [existsb]. intros H.
  repeat (apply orb_prop in H as [H|H];
          [apply String.eqb_eq in H as ->; reflexivity|]).
  discriminate.
Qed.

Example stats_of_inherited_names :
  fst (serve (GET_stats "constructor") req0 st_uploaded) = mkResponse 200 (Text EmptyString) /\
  fst (serve (GET_stats "__proto__") req0 st_uploaded) = mkResponse 200 (AllJson []) /\
  status (fst (serve (GET_download "toString") req0 st_uploaded)) = 500%nat /\
  status (fst (serve (POST_log_download "valueOf") req0 st_uploaded)) = 500%nat /\
  snd (serve (DELETE_delete "constructor") req0 st_uploaded) = st_uploaded.
Proof. split_and!; reflexivity. Qed.

(** Plain names and names with characters up to U+00FF (here U+00E9, as
    the bytes C3 A9) are legal header values; a line feed or a character
    above U+00FF (here U+0100, as the bytes C4 80) is not. *)
Example header_value_examples :
  header_value_ok "report (final).pdf" = true /\
  header_value_ok (String (ascii_of_nat 195) (String (ascii_of_nat 169) ".pdf")) = true /\
  header_value_ok (String (ascii_of_nat 10) "x.pdf") = false /\
  header_value_ok (String (ascii_of_nat 127) "x.pdf") = false /\
  header_value_ok (String (ascii_of_nat 196) (String (ascii_of_nat 128) ".pdf")) = false.
Proof. split_and!; reflexivity. Qed.
